(** * nc-website: the serverless form handlers, embedded and verified

    The development follows the four TypeScript sources of the repository:

    - [src/lib/turnstile.ts]   (module [Turnstile]),
    - [api/waitlist.ts]        (module [Waitlist]),
    - [api/referral.ts]        (module [Referral]),
    - [api/alpha-signup.ts]    (module [AlphaSignup]).

    Every handler is an [async] function whose only effects are outbound
    [fetch] calls and console logging.  Both are made explicit: a handler is
    a computation in the monad [M], which threads a trace of events and may
    complete normally or by a thrown exception; the answers of the outside
    world are an oracle giving the outcome of the k-th outbound call. *)

From Stdlib Require Import ZArith List String Ascii Bool Arith Lia.
Import ListNotations.
Local Open Scope string_scope.
Local Open Scope list_scope.

(* ================================================================== *)
(** * JavaScript values and string primitives *)
(* ================================================================== *)

Module JS.

(** A JavaScript string is modelled as a Rocq [string], one character per
    UTF-16 code unit (so code units are below 256 in the handlers; the
    referral hash below is also defined on arbitrary code units).  A field
    of a request body that may be missing is an [option string], [None]
    standing for [undefined]. *)
Definition value := option string.

(** Truthiness of a string-or-undefined value: [undefined] and the empty
    string are falsy. *)
Definition truthy (v : value) : bool :=
  match v with
  | Some s => negb (s =? EmptyString)
  | None => false
  end.

(** [String(v)], as a template literal renders the value. *)
Definition to_string (v : value) : string :=
  match v with
  | Some s => s
  | None => "undefined"
  end.

(** [v || d] for a string default [d]. *)
Definition or_else (v : value) (d : string) : string :=
  if truthy v then to_string v else d.

(** [s.includes(needle)]. *)
Fixpoint includes (needle s : string) : bool :=
  String.prefix needle s
  || match s with
     | EmptyString => false
     | String _ s' => includes needle s'
     end.

(** [c.charCodeAt(0)]. *)
Definition charCode (c : ascii) : Z := Z.of_N (N_of_ascii c).

Definition in_range (lo hi : Z) (c : ascii) : bool :=
  ((lo <=? charCode c) && (charCode c <=? hi))%Z.

(** [toLowerCase] on the code units the model has: A-Z, and the Latin-1
    capitals U+00C0..U+00DE except the multiplication sign U+00D7. *)
Definition lower_char (c : ascii) : ascii :=
  if in_range 65 90 c
     || (in_range 192 222 c && negb (charCode c =? 215)%Z)
  then ascii_of_N (N_of_ascii c + 32)
  else c.

Fixpoint toLowerCase (s : string) : string :=
  match s with
  | EmptyString => EmptyString
  | String c s' => String (lower_char c) (toLowerCase s')
  end.

(** [toUpperCase] restricted to what [Number.prototype.toString(36)]
    produces (digits and a-z). *)
Definition upper_char (c : ascii) : ascii :=
  if in_range 97 122 c then ascii_of_N (N_of_ascii c - 32) else c.

Fixpoint toUpperCase (s : string) : string :=
  match s with
  | EmptyString => EmptyString
  | String c s' => String (upper_char c) (toUpperCase s')
  end.

(** [s.slice(0, n)] and [s.substring(0, n)] for [n] within [0 .. ]. *)
Definition slice0 (n : nat) (s : string) : string := String.substring 0 n s.

(** [ToInt32]: reduction modulo 2^32 into the signed 32-bit range. *)
Definition toInt32 (v : Z) : Z :=
  let m := (v mod 2 ^ 32)%Z in
  if (m <? 2 ^ 31)%Z then m else (m - 2 ^ 32)%Z.

(** [a << n]: the left operand goes through [ToInt32], the shift count is
    taken modulo 32, the result is again a signed 32-bit integer. *)
Definition shl (a n : Z) : Z :=
  toInt32 (Z.shiftl (toInt32 a) (Z.land n 31)).

(** One base-36 digit, in lower case as [toString(36)] prints it. *)
Definition digit36 (d : Z) : ascii :=
  if (d <? 10)%Z then ascii_of_N (Z.to_N (48 + d))
  else ascii_of_N (Z.to_N (97 + (d - 10))).

(** Digits of a positive number, most significant first, accumulated in
    front of [acc]; [fuel] bounds the number of digits. *)
Fixpoint digits36 (fuel : nat) (n : Z) (acc : string) : string :=
  match fuel with
  | O => acc
  | S fuel' =>
      if (n <=? 0)%Z then acc
      else digits36 fuel' (n / 36)%Z (String (digit36 (n mod 36)%Z) acc)
  end.

(** [n.toString(36)] for an integer [n >= 0]; the fuel is the binary
    length of [n], which is at least its number of base-36 digits. *)
Definition toString36 (n : Z) : string :=
  if (n <=? 0)%Z then "0"
  else digits36 (S (Z.to_nat (Z.log2 n))) n EmptyString.

End JS.

(* ================================================================== *)
(** * Regular expressions, as far as the sources use them *)
(* ================================================================== *)

Module Regex.

Inductive regex : Type :=
| Class (p : ascii -> bool)                (* [...]            *)
| Seq (r1 r2 : regex)                      (* r1 r2            *)
| Alt (r1 r2 : regex)                      (* r1 | r2          *)
| Look (positive : bool) (r : regex)       (* (?=r) and (?!r)  *)
| Rep (r : regex) (lo hi : nat).           (* r{lo,hi}, greedy *)

(** Backtracking matcher in continuation-passing style: [run r s k] holds
    when [r] matches a prefix of [s] and the continuation [k] accepts what
    is left.  Alternatives are tried left to right and a repetition takes
    one more round before it tries to stop; a lookahead consumes
    nothing. *)
Fixpoint run (r : regex) (s : list ascii) (k : list ascii -> bool) : bool :=
  match r with
  | Class p =>
      match s with
      | c :: s' => if p c then k s' else false
      | [] => false
      end
  | Seq r1 r2 => run r1 s (fun s' => run r2 s' k)
  | Alt r1 r2 => if run r1 s k then true else run r2 s k
  | Look positive r1 =>
      if Bool.eqb (run r1 s (fun _ => true)) positive then k s else false
  | Rep r1 lo hi =>
      (fix rep (hi lo : nat) (s : list ascii) : bool :=
         match hi with
         | O => if (lo =? 0)%nat then k s else false
         | S hi' =>
             if run r1 s (fun s' => rep hi' (Nat.pred lo) s') then true
             else if (lo =? 0)%nat then k s else false
         end) hi lo s
  end.

Definition at_end (s : list ascii) : bool :=
  match s with [] => true | _ :: _ => false end.

(** [/^r$/.test(s)]: without the [m] flag, [$] only matches at the very
    end of the input. *)
Definition test (r : regex) (s : string) : bool :=
  run r (list_ascii_of_string s) at_end.

Definition alnum (c : ascii) : bool :=
  JS.in_range 97 122 c || JS.in_range 65 90 c || JS.in_range 48 57 c.

Definition upper_alnum (c : ascii) : bool :=
  JS.in_range 65 90 c || JS.in_range 48 57 c.

Definition hyphen (c : ascii) : bool := (JS.charCode c =? 45)%Z.

Definition is_char (a : ascii) (c : ascii) : bool := Ascii.eqb a c.

End Regex.

(* ================================================================== *)
(** * Effects: outbound calls, logging, exceptions *)
(* ================================================================== *)

(** Opaque HTML bodies.  The templates are plain string builders; only the
    values interpolated into them are kept.  Timestamps read from the clock
    ([new Date()]) are left out of every payload. *)
Inductive Html : Type :=
| getWaitlistEmail (name : string)
| getFoundation100Email (name : string)
| WaitlistAdminHtml (email : string) (name : string) (type : JS.value)
| getFriendInviteEmail (friendName referrerName referralCode : string)
| getReferrerConfirmationEmail (referrerName friendName : string)
                               (counterpartyAddress : JS.value)
| ReferralAdminHtml (referrerName referrerEmail counterparty
                     friendName friendEmail referralCode : string)
                    (kudos : bool)
| AlphaAdminHtml (name email github discoveryLabel motivation : string)
| AlphaUserHtml (name github : string).

Record Mail : Type := {
  mail_to : string;
  mail_from : string;
  mail_from_name : string;
  mail_subject : string;
  mail_content : Html
}.

Record Contact : Type := {
  contact_email : string;
  contact_first_name : string;
  contact_custom_fields : list (string * JS.value)
}.

Inductive Payload : Type :=
| MailSend (m : Mail)
| Contacts (cs : list Contact)
| Form (fields : list (string * string)).

Record HttpRequest : Type := {
  req_url : string;
  req_method : string;
  req_bearer : option string;
  req_payload : Payload
}.

(** What an outbound call can come back with: the promise rejects
    ([NetworkError]) or a response arrives.  [resp_text] is [None] when
    reading the body rejects; [resp_json_success] is [None] when
    [response.json()] rejects (or yields [null]) and otherwise the
    truthiness of the [success] member of the parsed object. *)
Record HttpResponse : Type := {
  resp_ok : bool;
  resp_text : option string;
  resp_json_success : option bool
}.

Inductive Outcome : Type :=
| NetworkError
| Responded (r : HttpResponse).

(** The outside world: the outcome of the k-th outbound call of a run. *)
Definition World := nat -> Outcome.

Inductive LogLevel : Type := LInfo | LWarn | LError.

Inductive Event : Type :=
| Fetch (r : HttpRequest)
| Log (level : LogLevel) (label : string).

Definition Trace := list Event.

Inductive Completion (A : Type) : Type :=
| Normal (a : A)
| Thrown (e : string).
Arguments Normal {A} a.
Arguments Thrown {A} e.

Definition M (A : Type) : Type := World -> Trace -> Completion A * Trace.

Definition ret {A} (a : A) : M A := fun _ tr => (Normal a, tr).

Definition bind {A B} (m : M A) (f : A -> M B) : M B :=
  fun w tr =>
    match m w tr with
    | (Normal a, tr') => f a w tr'
    | (Thrown e, tr') => (Thrown e, tr')
    end.

Definition throw {A} (e : string) : M A := fun _ tr => (Thrown e, tr).

(** [try { m } catch (e) { h e }]. *)
Definition try_catch {A} (m : M A) (h : string -> M A) : M A :=
  fun w tr =>
    match m w tr with
    | (Normal a, tr') => (Normal a, tr')
    | (Thrown e, tr') => h e w tr'
    end.

Declare Scope js_scope.
Delimit Scope js_scope with js.
Notation "x <- m ;; k" := (bind m (fun x => k))
  (at level 61, m at next level, right associativity) : js_scope.
Notation "m ;; k" := (bind m (fun _ => k))
  (at level 61, right associativity) : js_scope.
Local Open Scope js_scope.

Definition is_fetch (e : Event) : bool :=
  match e with Fetch _ => true | Log _ _ => false end.

(** The outbound calls of a trace, in the order they were issued. *)
Fixpoint calls (tr : Trace) : list HttpRequest :=
  match tr with
  | [] => []
  | Fetch r :: tr' => r :: calls tr'
  | Log _ _ :: tr' => calls tr'
  end.

Fixpoint logs (tr : Trace) : list (LogLevel * string) :=
  match tr with
  | [] => []
  | Fetch _ :: tr' => logs tr'
  | Log l s :: tr' => (l, s) :: logs tr'
  end.

(** [await fetch(...)]: the call is recorded, then the world answers. *)
Definition fetch (r : HttpRequest) : M HttpResponse :=
  fun w tr =>
    match w (List.length (calls tr)) with
    | NetworkError => (Thrown "TypeError: fetch failed", tr ++ [Fetch r])
    | Responded resp => (Normal resp, tr ++ [Fetch r])
    end.

(** [await response.text()]. *)
Definition text (resp : HttpResponse) : M string :=
  match resp_text resp with
  | Some t => ret t
  | None => throw "TypeError: body unreadable"
  end.

(** [(await response.json()).success], by truthiness. *)
Definition json_success (resp : HttpResponse) : M bool :=
  match resp_json_success resp with
  | Some b => ret b
  | None => throw "SyntaxError: invalid JSON"
  end.

Definition console (level : LogLevel) (label : string) : M unit :=
  fun _ tr => (Normal tt, tr ++ [Log level label]).

(** ** HTTP responses of the handlers *)

Inductive Body : Type :=
| NoBody
| ErrorBody (error : string)
| SuccessBody (message : string).

Record Response : Type := {
  status : nat;
  headers : list (string * string);
  body : Body
}.

(** The four [res.setHeader] calls every handler starts with. *)
Definition cors_headers : list (string * string) :=
  [ ("Access-Control-Allow-Credentials", "true");
    ("Access-Control-Allow-Origin", "*");
    ("Access-Control-Allow-Methods", "GET,OPTIONS,PATCH,DELETE,POST,PUT");
    ("Access-Control-Allow-Headers", "Content-Type") ].

(** [res.status(code).json(b)] and [res.status(code).end()]. *)
Definition respond (code : nat) (b : Body) : Response :=
  {| status := code; headers := cors_headers; body := b |}.

Record Request (Data : Type) : Type := {
  method : string;
  payload : option Data
}.
Arguments method {Data} _.
Arguments payload {Data} _.

Definition mail_send_url := "https://api.sendgrid.com/v3/mail/send".
Definition contacts_url := "https://api.sendgrid.com/v3/marketing/contacts".
Definition siteverify_url :=
  "https://challenges.cloudflare.com/turnstile/v0/siteverify".

Definition post_mail (key : JS.value) (m : Mail) : HttpRequest :=
  {| req_url := mail_send_url; req_method := "POST";
     req_bearer := Some (JS.to_string key); req_payload := MailSend m |}.

Definition put_contacts (key : JS.value) (cs : list Contact) : HttpRequest :=
  {| req_url := contacts_url; req_method := "PUT";
     req_bearer := Some (JS.to_string key); req_payload := Contacts cs |}.

Definition post_form (fields : list (string * string)) : HttpRequest :=
  {| req_url := siteverify_url; req_method := "POST";
     req_bearer := None; req_payload := Form fields |}.

(* ================================================================== *)
(** * src/lib/turnstile.ts *)
(* ================================================================== *)

Module Turnstile.

Definition verifyTurnstileToken
    (token : JS.value) (secretKey : JS.value) (remoteip : JS.value)
  : M bool :=
  if negb (JS.truthy secretKey) then
    console LWarn
      "Turnstile secret key not configured - skipping verification" ;;
    ret true
  else if negb (JS.truthy token) then
    console LInfo "No Turnstile token provided" ;;
    ret false
  else
    try_catch
      (let formData :=
         [("secret", JS.to_string secretKey);
          ("response", JS.to_string token)]
         ++ (if JS.truthy remoteip
             then [("remoteip", JS.to_string remoteip)] else []) in
       response <- fetch (post_form formData) ;;
       success <- json_success response ;;
       (if negb success
        then console LInfo "Turnstile verification failed:"
        else ret tt) ;;
       ret success)
      (fun _ =>
         console LError "Turnstile verification error:" ;;
         ret false).

End Turnstile.

(* ================================================================== *)
(** * Configuration read from the process environment *)
(* ================================================================== *)

Record Config : Type := {
  SENDGRID_API_KEY : JS.value;
  TURNSTILE_SECRET_KEY : JS.value
}.

(* ================================================================== *)
(** * api/waitlist.ts *)
(* ================================================================== *)

Module Waitlist.

Definition ADMIN_EMAIL := "bradley@neuralcommander.ai".
Definition FROM_EMAIL := "noreply@neuralcommander.ai".

Record WaitlistData : Type := {
  email : JS.value;
  name : JS.value;
  type : JS.value
}.

(** [type === 'foundation100'] *)
Definition is_foundation100 (type : JS.value) : bool :=
  match type with
  | Some t => t =? "foundation100"
  | None => false
  end.

(** The object literal of the first [fetch]. *)
Definition user_mail (email : string) (name type : JS.value) : Mail :=
  {| mail_to := email;
     mail_from := FROM_EMAIL;
     mail_from_name := "Neural Commander";
     mail_subject :=
       if is_foundation100 type
       then "🎉 Welcome to Foundation 100!"
       else "🚀 You're on the Neural Commander Waitlist!";
     mail_content :=
       if is_foundation100 type
       then getFoundation100Email (JS.or_else name "there")
       else getWaitlistEmail (JS.or_else name "there") |}.

(** The object literal of the second [fetch]. *)
Definition admin_mail (email : string) (name type : JS.value) : Mail :=
  {| mail_to := ADMIN_EMAIL;
     mail_from := FROM_EMAIL;
     mail_from_name := "NC Waitlist";
     mail_subject :=
       if is_foundation100 type
       then "💰 Foundation 100 Signup: " ++ email
       else "📋 New Waitlist Signup: " ++ email;
     mail_content :=
       WaitlistAdminHtml email (JS.or_else name "Not provided") type |}.

Definition addToContactList
    (cfg : Config) (email : string) (name type : JS.value) : M unit :=
  if negb (JS.truthy (SENDGRID_API_KEY cfg)) then ret tt
  else
    try_catch
      (_ <- fetch (put_contacts (SENDGRID_API_KEY cfg)
             [ {| contact_email := email;
                  contact_first_name := JS.or_else name EmptyString;
                  contact_custom_fields := [("signup_type", type)] |} ]) ;;
       ret tt)
      (fun _ => console LError "Failed to add to contact list:").

Definition handler (cfg : Config) (req : Request WaitlistData)
  : M Response :=
  if method req =? "OPTIONS" then ret (respond 200 NoBody)
  else if negb (method req =? "POST") then
    ret (respond 405 (ErrorBody "Method not allowed"))
  else
    try_catch
      (match payload req with
       | None => throw "TypeError: cannot destructure the request body"
       | Some d =>
           if negb (JS.truthy (email d))
              || negb (JS.includes "@" (JS.to_string (email d)))
           then ret (respond 400 (ErrorBody "Valid email required"))
           else if negb (JS.truthy (SENDGRID_API_KEY cfg)) then
             console LError "SendGrid API key not configured" ;;
             ret (respond 500 (ErrorBody "Email service not configured"))
           else
             let email := JS.to_string (email d) in
             (* 1. Send confirmation email to user *)
             userEmailResponse <-
               fetch (post_mail (SENDGRID_API_KEY cfg)
                        (user_mail email (name d) (type d))) ;;
             (if negb (resp_ok userEmailResponse) then
                _ <- text userEmailResponse ;;
                console LError "SendGrid error (user):" ;;
                throw "Failed to send confirmation email"
              else ret tt) ;;
             (* 2. Send notification to admin *)
             adminEmailResponse <-
               fetch (post_mail (SENDGRID_API_KEY cfg)
                        (admin_mail email (name d) (type d))) ;;
             (if negb (resp_ok adminEmailResponse) then
                _ <- text adminEmailResponse ;;
                console LError "SendGrid error (admin):"
              else ret tt) ;;
             (* 3. Add to SendGrid contact list *)
             addToContactList cfg email (name d) (type d) ;;
             ret (respond 200
                    (SuccessBody "Successfully joined the waitlist!"))
       end)
      (fun _ =>
         console LError "Waitlist error:" ;;
         ret (respond 500 (ErrorBody "Failed to process signup"))).

End Waitlist.

(* ================================================================== *)
(** * api/referral.ts *)
(* ================================================================== *)

Module Referral.

Definition ADMIN_EMAIL := "bradley@neuralcommander.ai".
Definition FROM_EMAIL := "noreply@neuralcommander.ai".

Record ReferralData : Type := {
  referrerName : JS.value;
  referrerEmail : JS.value;
  counterpartyAddress : JS.value;
  friendName : JS.value;
  friendEmail : JS.value
}.

(** The reducer [(acc, char) => ((acc << 5) - acc) + char.charCodeAt(0)].
    Only the shift goes through 32-bit integers: the subtraction and the
    addition are ordinary number arithmetic, so the accumulator is not
    confined to 32 bits.  Numbers are exact integers below 2^53 in
    absolute value; see [hash_units_bound] for when that holds. *)
Definition hash_step (acc : Z) (code : Z) : Z :=
  (JS.shl acc 5 - acc + code)%Z.

Definition hash_units (codes : list Z) : Z := fold_left hash_step codes 0%Z.

(** [`NC-${Math.abs(hash).toString(36).toUpperCase().slice(0, 6)}`] *)
Definition code_of_hash (hash : Z) : string :=
  "NC-" ++ JS.slice0 6 (JS.toUpperCase (JS.toString36 (Z.abs hash))).

(** [generateReferralCode] on the UTF-16 code units of the email. *)
Definition generateReferralCode_units (codes : list Z) : string :=
  code_of_hash (hash_units codes).

Definition generateReferralCode (email : string) : string :=
  generateReferralCode_units (map JS.charCode (list_ascii_of_string email)).

Definition addReferralContacts
    (cfg : Config)
    (referrerEmail referrerName friendEmail friendName referralCode : string)
    (counterpartyAddress : JS.value) : M unit :=
  if negb (JS.truthy (SENDGRID_API_KEY cfg)) then ret tt
  else
    try_catch
      (_ <- fetch (put_contacts (SENDGRID_API_KEY cfg)
             [ {| contact_email := referrerEmail;
                  contact_first_name := referrerName;
                  contact_custom_fields :=
                    [ ("referral_code", Some referralCode);
                      ("counterparty_address",
                       Some (JS.or_else counterpartyAddress EmptyString));
                      ("referrals_sent", Some "1") ] |};
               {| contact_email := friendEmail;
                  contact_first_name := friendName;
                  contact_custom_fields :=
                    [ ("referred_by", Some referrerEmail);
                      ("referral_code_used", Some referralCode);
                      ("signup_type", Some "referral") ] |} ]) ;;
       ret tt)
      (fun _ => console LError "Failed to add referral contacts:").

Definition friend_mail
    (friendEmail friendName referrerName referralCode : string) : Mail :=
  {| mail_to := friendEmail;
     mail_from := FROM_EMAIL;
     mail_from_name := "Neural Commander";
     mail_subject := referrerName ++ " invited you to try Neural Commander";
     mail_content :=
       getFriendInviteEmail friendName referrerName referralCode |}.

Definition referrer_mail
    (referrerEmail referrerName friendName : string)
    (counterpartyAddress : JS.value) : Mail :=
  {| mail_to := referrerEmail;
     mail_from := FROM_EMAIL;
     mail_from_name := "Neural Commander";
     mail_subject := "Your referral to " ++ friendName ++ " has been sent!";
     mail_content :=
       getReferrerConfirmationEmail referrerName friendName
         counterpartyAddress |}.

Definition admin_mail
    (referrerEmail referrerName friendEmail friendName referralCode : string)
    (counterpartyAddress : JS.value) : Mail :=
  {| mail_to := ADMIN_EMAIL;
     mail_from := FROM_EMAIL;
     mail_from_name := "NC Referrals";
     mail_subject :=
       "🔗 New Referral: " ++ referrerName ++ " → " ++ friendName;
     mail_content :=
       ReferralAdminHtml referrerName referrerEmail
         (JS.or_else counterpartyAddress "Not provided")
         friendName friendEmail referralCode
         (JS.truthy counterpartyAddress) |}.

Definition handler (cfg : Config) (req : Request ReferralData)
  : M Response :=
  if method req =? "OPTIONS" then ret (respond 200 NoBody)
  else if negb (method req =? "POST") then
    ret (respond 405 (ErrorBody "Method not allowed"))
  else
    try_catch
      (match payload req with
       | None => throw "TypeError: cannot destructure the request body"
       | Some d =>
           (* Validation *)
           if negb (JS.truthy (referrerName d))
              || negb (JS.truthy (referrerEmail d))
              || negb (JS.truthy (friendName d))
              || negb (JS.truthy (friendEmail d))
           then ret (respond 400
                       (ErrorBody "All required fields must be provided"))
           else if negb (JS.includes "@" (JS.to_string (referrerEmail d)))
                   || negb (JS.includes "@" (JS.to_string (friendEmail d)))
           then ret (respond 400
                       (ErrorBody "Valid email addresses required"))
           else if JS.toLowerCase (JS.to_string (referrerEmail d))
                   =? JS.toLowerCase (JS.to_string (friendEmail d))
           then ret (respond 400 (ErrorBody "You cannot refer yourself"))
           else if negb (JS.truthy (SENDGRID_API_KEY cfg)) then
             console LError "SendGrid API key not configured" ;;
             ret (respond 500 (ErrorBody "Email service not configured"))
           else
             let key := SENDGRID_API_KEY cfg in
             let rName := JS.to_string (referrerName d) in
             let rEmail := JS.to_string (referrerEmail d) in
             let fName := JS.to_string (friendName d) in
             let fEmail := JS.to_string (friendEmail d) in
             let referralCode := generateReferralCode rEmail in
             (* 1. Send invite email to friend *)
             friendEmailResponse <-
               fetch (post_mail key
                        (friend_mail fEmail fName rName referralCode)) ;;
             (if negb (resp_ok friendEmailResponse) then
                _ <- text friendEmailResponse ;;
                console LError "SendGrid error (friend):" ;;
                throw "Failed to send invite email"
              else ret tt) ;;
             (* 2. Send confirmation to referrer *)
             referrerEmailResponse <-
               fetch (post_mail key
                        (referrer_mail rEmail rName fName
                           (counterpartyAddress d))) ;;
             (if negb (resp_ok referrerEmailResponse) then
                _ <- text referrerEmailResponse ;;
                console LError "SendGrid error (referrer):"
              else ret tt) ;;
             (* 3. Send notification to admin *)
             adminEmailResponse <-
               fetch (post_mail key
                        (admin_mail rEmail rName fEmail fName referralCode
                           (counterpartyAddress d))) ;;
             (if negb (resp_ok adminEmailResponse) then
                _ <- text adminEmailResponse ;;
                console LError "SendGrid error (admin):"
              else ret tt) ;;
             (* 4. Add both contacts to SendGrid *)
             addReferralContacts cfg rEmail rName fEmail fName referralCode
               (counterpartyAddress d) ;;
             ret (respond 200 (SuccessBody "Referral sent successfully!"))
       end)
      (fun _ =>
         console LError "Referral error:" ;;
         ret (respond 500 (ErrorBody "Failed to process referral"))).

End Referral.

(* ================================================================== *)
(** * api/alpha-signup.ts *)
(* ================================================================== *)

Module AlphaSignup.

Definition ADMIN_EMAIL := "bradley@neuralcommander.ai".
Definition FROM_EMAIL := "hello@neuralcommander.ai".

Record AlphaSignupData : Type := {
  name : JS.value;
  email : JS.value;
  github : JS.value;
  discovery : JS.value;
  motivation : JS.value;
  turnstileToken : JS.value
}.

(** The own keys of the [DISCOVERY_LABELS] table (a lookup of an inherited
    key such as [constructor] is not modelled; the label only reaches the
    admin mail's HTML). *)
Definition DISCOVERY_LABELS (key : string) : JS.value :=
  if key =? "twitter" then Some "Twitter/X"
  else if key =? "hackernews" then Some "Hacker News"
  else if key =? "reddit" then Some "Reddit"
  else if key =? "referral" then Some "Friend referral"
  else if key =? "google" then Some "Google search"
  else if key =? "ai-communities" then Some "AI coding communities"
  else if key =? "other" then Some "Other"
  else None.

(** [/^[a-zA-Z0-9](?:[a-zA-Z0-9]|-(?=[a-zA-Z0-9])){0,38}$/] *)
Definition githubPattern : Regex.regex :=
  Regex.Seq (Regex.Class Regex.alnum)
    (Regex.Rep
       (Regex.Alt (Regex.Class Regex.alnum)
          (Regex.Seq (Regex.Class Regex.hyphen)
             (Regex.Look true (Regex.Class Regex.alnum))))
       0 38).

Definition verifyTurnstile (cfg : Config) (token : string) : M bool :=
  if negb (JS.truthy (TURNSTILE_SECRET_KEY cfg)) then ret true
  else
    try_catch
      (response <-
         fetch (post_form
                  [("secret", JS.to_string (TURNSTILE_SECRET_KEY cfg));
                   ("response", token)]) ;;
       json_success response)
      (fun _ =>
         console LError "Turnstile verification error:" ;;
         ret false).

Definition admin_mail
    (name email github discovery motivation : string) : Mail :=
  {| mail_to := ADMIN_EMAIL;
     mail_from := FROM_EMAIL;
     mail_from_name := "NC Alpha Signups";
     mail_subject := "🧪 Alpha Request: " ++ github ++ " (" ++ name ++ ")";
     mail_content :=
       AlphaAdminHtml name email github
         (JS.or_else (DISCOVERY_LABELS discovery) discovery) motivation |}.

Definition user_mail (name email github : string) : Mail :=
  {| mail_to := email;
     mail_from := FROM_EMAIL;
     mail_from_name := "Neural Commander";
     mail_subject := "🧪 Alpha Access Request Received - Neural Commander";
     mail_content := AlphaUserHtml name github |}.

(** The three senders await their [fetch] and look at nothing of the
    response. *)
Definition sendAdminNotification
    (cfg : Config) (name email github discovery motivation : string)
  : M unit :=
  _ <- fetch (post_mail (SENDGRID_API_KEY cfg)
                (admin_mail name email github discovery motivation)) ;;
  ret tt.

Definition sendUserConfirmation
    (cfg : Config) (name email github : string) : M unit :=
  _ <- fetch (post_mail (SENDGRID_API_KEY cfg)
                (user_mail name email github)) ;;
  ret tt.

Definition addToContactList
    (cfg : Config) (name email github discovery : string) : M unit :=
  try_catch
    (_ <- fetch (put_contacts (SENDGRID_API_KEY cfg)
           [ {| contact_email := email;
                contact_first_name := name;
                contact_custom_fields :=
                  [ ("signup_type", Some "alpha");
                    ("github_username", Some github);
                    ("discovery_source", Some discovery) ] |} ]) ;;
     ret tt)
    (fun _ => console LError "Failed to add to contact list:").

(** The part of the handler after the bot check. *)
Definition dispatch (cfg : Config) (d : AlphaSignupData) : M Response :=
  let name := JS.to_string (name d) in
  let email := JS.to_string (email d) in
  let github := JS.to_string (github d) in
  let discovery := JS.to_string (discovery d) in
  let motivation := JS.to_string (motivation d) in
  (* Log the signup *)
  console LInfo "🎉 NEW ALPHA SIGNUP:" ;;
  (* Send emails if SendGrid is configured *)
  (if JS.truthy (SENDGRID_API_KEY cfg) then
     try_catch
       ((* 1. Send admin notification (priority!) *)
        sendAdminNotification cfg name email github discovery motivation ;;
        (* 2. Send user confirmation *)
        sendUserConfirmation cfg name email github ;;
        (* 3. Add to SendGrid contacts *)
        addToContactList cfg name email github discovery)
       (fun _ => console LError "Email sending error:")
   else
     console LInfo
       "SendGrid not configured - signup logged but no emails sent") ;;
  ret (respond 200 (SuccessBody "Alpha access request submitted!")).

Definition handler (cfg : Config) (req : Request AlphaSignupData)
  : M Response :=
  if method req =? "OPTIONS" then ret (respond 200 NoBody)
  else if negb (method req =? "POST") then
    ret (respond 405 (ErrorBody "Method not allowed"))
  else
    try_catch
      (match payload req with
       | None => throw "TypeError: cannot destructure the request body"
       | Some d =>
           (* Validation *)
           if negb (JS.truthy (name d)) || negb (JS.truthy (email d))
              || negb (JS.truthy (github d))
              || negb (JS.truthy (discovery d))
              || negb (JS.truthy (motivation d))
           then ret (respond 400 (ErrorBody "All fields are required"))
           else if negb (JS.includes "@" (JS.to_string (email d)))
           then ret (respond 400 (ErrorBody "Valid email required"))
           else if (String.length (JS.to_string (motivation d)) <? 20)%nat
           then ret (respond 400
                       (ErrorBody
                          "Please provide a more detailed motivation"))
           else if negb (Regex.test githubPattern
                           (JS.to_string (github d)))
           then ret (respond 400
                       (ErrorBody "Invalid GitHub username format"))
           else if JS.truthy (TURNSTILE_SECRET_KEY cfg)
                   && JS.truthy (turnstileToken d)
           then
             (* Verify Turnstile token *)
             turnstileValid <-
               verifyTurnstile cfg (JS.to_string (turnstileToken d)) ;;
             if negb turnstileValid then
               ret (respond 400
                      (ErrorBody
                         "Bot verification failed. Please try again."))
             else dispatch cfg d
           else dispatch cfg d
       end)
      (fun _ =>
         console LError "Alpha signup error:" ;;
         ret (respond 500 (ErrorBody "Failed to process signup"))).

End AlphaSignup.

(** One run of a handler: a fresh trace, the world [w]. *)
Definition run {A} (m : M A) (w : World) : Completion A * Trace := m w [].

Definition result {A} (m : M A) (w : World) : Completion A := fst (run m w).
Definition trace {A} (m : M A) (w : World) : Trace := snd (run m w).

(* ================================================================== *)
(** * The patterns as the specification words them *)
(* ================================================================== *)

Module Spec.

(** [^[A-Za-z0-9](?:[A-Za-z0-9]|-(?!-)){0,38}$], the GitHub-handle rule of
    the specification: a hyphen is allowed when no hyphen follows it. *)
Definition githubPattern : Regex.regex :=
  Regex.Seq (Regex.Class Regex.alnum)
    (Regex.Rep
       (Regex.Alt (Regex.Class Regex.alnum)
          (Regex.Seq (Regex.Class Regex.hyphen)
             (Regex.Look false (Regex.Class Regex.hyphen))))
       0 38).

(** [^NC-[A-Z0-9]{1,6}$], the shape of a referral code. *)
Definition referralCodePattern : Regex.regex :=
  Regex.Seq (Regex.Class (Regex.is_char "N"))
    (Regex.Seq (Regex.Class (Regex.is_char "C"))
       (Regex.Seq (Regex.Class (Regex.is_char "-"))
          (Regex.Rep (Regex.Class Regex.upper_alnum) 1 6))).

End Spec.

(* ================================================================== *)
(** * Vocabulary of the statements *)
(* ================================================================== *)

(** A [POST] request carrying the body [d]. *)
Definition post {Data} (d : Data) : Request Data :=
  {| method := "POST"; payload := Some d |}.

Definition ok_response : HttpResponse :=
  {| resp_ok := true; resp_text := Some "{}"; resp_json_success := Some true |}.

Definition failed_response : HttpResponse :=
  {| resp_ok := false; resp_text := Some "Unauthorized";
     resp_json_success := None |}.

(** [l1] is an initial segment of [l2]. *)
Definition initial_segment {A} (l1 l2 : list A) : Prop :=
  exists k, l1 = firstn k l2.

(** Every outbound call of a world succeeds: a response arrives, its
    status is a success, and its JSON body carries a truthy [success]. *)
Definition all_succeed (w : World) : Prop :=
  forall k, exists r,
    w k = Responded r /\ resp_ok r = true /\ resp_json_success r = Some true.

(** The world in which every call is answered by [ok_response]. *)
Definition friendly : World := fun _ => Responded ok_response.

(** The world that answers as [w] does, except for call [k], whose outcome
    is [o]. *)
Definition answering (k : nat) (o : Outcome) (w : World) : World :=
  fun i => if (i =? k)%nat then o else w i.

(** Sample configurations and submissions, for the concrete runs. *)
Definition configured : Config :=
  {| SENDGRID_API_KEY := Some "SG.key"; TURNSTILE_SECRET_KEY := None |}.

Definition guarded : Config :=
  {| SENDGRID_API_KEY := Some "SG.key";
     TURNSTILE_SECRET_KEY := Some "0x4AAA-secret" |}.

Definition unconfigured : Config :=
  {| SENDGRID_API_KEY := None; TURNSTILE_SECRET_KEY := None |}.

Definition ann_waitlist : Waitlist.WaitlistData :=
  {| Waitlist.email := Some "a@b.com";
     Waitlist.name := Some "Ann";
     Waitlist.type := Some "waitlist" |}.

Definition bare_waitlist : Waitlist.WaitlistData :=
  {| Waitlist.email := Some "a@b.com";
     Waitlist.name := None;
     Waitlist.type := None |}.

Definition ann_referral : Referral.ReferralData :=
  {| Referral.referrerName := Some "Ann";
     Referral.referrerEmail := Some "ann@example.com";
     Referral.counterpartyAddress := None;
     Referral.friendName := Some "Bob";
     Referral.friendEmail := Some "bob@example.com" |}.

Definition ann_refers_herself : Referral.ReferralData :=
  {| Referral.referrerName := Some "Ann";
     Referral.referrerEmail := Some "Ann@Example.com";
     Referral.counterpartyAddress := None;
     Referral.friendName := Some "Also Ann";
     Referral.friendEmail := Some "ann@example.COM" |}.

Definition alpha_request (github : string) (token : JS.value)
  : AlphaSignup.AlphaSignupData :=
  {| AlphaSignup.name := Some "Ann";
     AlphaSignup.email := Some "ann@example.com";
     AlphaSignup.github := Some github;
     AlphaSignup.discovery := Some "hackernews";
     AlphaSignup.motivation :=
       Some "I want to test the daemon on my monorepo.";
     AlphaSignup.turnstileToken := token |}.

Definition ann_alpha : AlphaSignup.AlphaSignupData :=
  alpha_request "ann-dev" None.

(** The checks of the three validators, in the order of the handlers. *)
Definition waitlist_valid (d : Waitlist.WaitlistData) : bool :=
  JS.truthy (Waitlist.email d)
  && JS.includes "@" (JS.to_string (Waitlist.email d)).

Definition referral_fields_ok (d : Referral.ReferralData) : bool :=
  JS.truthy (Referral.referrerName d)
  && JS.truthy (Referral.referrerEmail d)
  && JS.truthy (Referral.friendName d)
  && JS.truthy (Referral.friendEmail d)
  && JS.includes "@" (JS.to_string (Referral.referrerEmail d))
  && JS.includes "@" (JS.to_string (Referral.friendEmail d)).

Definition self_referral (d : Referral.ReferralData) : bool :=
  JS.toLowerCase (JS.to_string (Referral.referrerEmail d))
  =? JS.toLowerCase (JS.to_string (Referral.friendEmail d)).

Definition referral_valid (d : Referral.ReferralData) : bool :=
  referral_fields_ok d && negb (self_referral d).

(** The alpha checks that come before the GitHub-handle rule. *)
Definition alpha_fields_ok (d : AlphaSignup.AlphaSignupData) : bool :=
  JS.truthy (AlphaSignup.name d)
  && JS.truthy (AlphaSignup.email d)
  && JS.truthy (AlphaSignup.github d)
  && JS.truthy (AlphaSignup.discovery d)
  && JS.truthy (AlphaSignup.motivation d)
  && JS.includes "@" (JS.to_string (AlphaSignup.email d))
  && negb (String.length (JS.to_string (AlphaSignup.motivation d)) <? 20)%nat.

Definition alpha_valid (d : AlphaSignup.AlphaSignupData) : bool :=
  alpha_fields_ok d
  && Regex.test AlphaSignup.githubPattern
       (JS.to_string (AlphaSignup.github d)).

(** The alpha handler runs its bot check only with a secret and a token. *)
Definition bot_check_runs
    (cfg : Config) (d : AlphaSignup.AlphaSignupData) : bool :=
  JS.truthy (TURNSTILE_SECRET_KEY cfg)
  && JS.truthy (AlphaSignup.turnstileToken d).

(** The bot check lets the request through: it does not run, or the
    verification service (the first outbound call then) answers with a
    truthy [success]. *)
Definition bot_check_passes
    (cfg : Config) (d : AlphaSignup.AlphaSignupData) (w : World) : bool :=
  if bot_check_runs cfg d then
    match w 0 with
    | Responded r =>
        match resp_json_success r with
        | Some true => true
        | _ => false
        end
    | NetworkError => false
    end
  else true.

(** The verification call of the alpha handler, when it runs. *)
Definition alpha_verification
    (cfg : Config) (d : AlphaSignup.AlphaSignupData) : list HttpRequest :=
  if bot_check_runs cfg d then
    [ post_form [("secret", JS.to_string (TURNSTILE_SECRET_KEY cfg));
                 ("response", JS.to_string (AlphaSignup.turnstileToken d))] ]
  else [].

(** The outbound jobs of each handler, in program order. *)
Definition waitlist_jobs (cfg : Config) (d : Waitlist.WaitlistData)
  : list HttpRequest :=
  let email := JS.to_string (Waitlist.email d) in
  [ post_mail (SENDGRID_API_KEY cfg)
      (Waitlist.user_mail email (Waitlist.name d) (Waitlist.type d));
    post_mail (SENDGRID_API_KEY cfg)
      (Waitlist.admin_mail email (Waitlist.name d) (Waitlist.type d));
    put_contacts (SENDGRID_API_KEY cfg)
      [ {| contact_email := email;
           contact_first_name := JS.or_else (Waitlist.name d) EmptyString;
           contact_custom_fields :=
             [("signup_type", Waitlist.type d)] |} ] ].

Definition referral_contacts (d : Referral.ReferralData) : list Contact :=
  let rEmail := JS.to_string (Referral.referrerEmail d) in
  let code := Referral.generateReferralCode rEmail in
  [ {| contact_email := rEmail;
       contact_first_name := JS.to_string (Referral.referrerName d);
       contact_custom_fields :=
         [ ("referral_code", Some code);
           ("counterparty_address",
            Some (JS.or_else (Referral.counterpartyAddress d) EmptyString));
           ("referrals_sent", Some "1") ] |};
    {| contact_email := JS.to_string (Referral.friendEmail d);
       contact_first_name := JS.to_string (Referral.friendName d);
       contact_custom_fields :=
         [ ("referred_by", Some rEmail);
           ("referral_code_used", Some code);
           ("signup_type", Some "referral") ] |} ].

Definition referral_jobs (cfg : Config) (d : Referral.ReferralData)
  : list HttpRequest :=
  let rName := JS.to_string (Referral.referrerName d) in
  let rEmail := JS.to_string (Referral.referrerEmail d) in
  let fName := JS.to_string (Referral.friendName d) in
  let fEmail := JS.to_string (Referral.friendEmail d) in
  let code := Referral.generateReferralCode rEmail in
  [ post_mail (SENDGRID_API_KEY cfg)
      (Referral.friend_mail fEmail fName rName code);
    post_mail (SENDGRID_API_KEY cfg)
      (Referral.referrer_mail rEmail rName fName
         (Referral.counterpartyAddress d));
    post_mail (SENDGRID_API_KEY cfg)
      (Referral.admin_mail rEmail rName fEmail fName code
         (Referral.counterpartyAddress d));
    put_contacts (SENDGRID_API_KEY cfg) (referral_contacts d) ].

Definition alpha_jobs (cfg : Config) (d : AlphaSignup.AlphaSignupData)
  : list HttpRequest :=
  let name := JS.to_string (AlphaSignup.name d) in
  let email := JS.to_string (AlphaSignup.email d) in
  let github := JS.to_string (AlphaSignup.github d) in
  let discovery := JS.to_string (AlphaSignup.discovery d) in
  let motivation := JS.to_string (AlphaSignup.motivation d) in
  [ post_mail (SENDGRID_API_KEY cfg)
      (AlphaSignup.admin_mail name email github discovery motivation);
    post_mail (SENDGRID_API_KEY cfg)
      (AlphaSignup.user_mail name email github);
    put_contacts (SENDGRID_API_KEY cfg)
      [ {| contact_email := email;
           contact_first_name := name;
           contact_custom_fields :=
             [ ("signup_type", Some "alpha");
               ("github_username", Some github);
               ("discovery_source", Some discovery) ] |} ] ].

(** ** Closed forms of the two GitHub patterns *)

Definition followed_by (p : ascii -> bool) (s : list ascii) : bool :=
  match s with
  | c :: _ => p c
  | [] => false
  end.

(** One round of the repeated group of the source pattern. *)
Definition code_round (c : ascii) (rest : list ascii) : bool :=
  Regex.alnum c || (Regex.hyphen c && followed_by Regex.alnum rest).

(** One round of the repeated group of the specification's pattern. *)
Definition spec_round (c : ascii) (rest : list ascii) : bool :=
  Regex.alnum c || (Regex.hyphen c && negb (followed_by Regex.hyphen rest)).

(** At most [n] rounds up to the end of the input. *)
Fixpoint rounds (round : ascii -> list ascii -> bool) (n : nat)
    (s : list ascii) {struct s} : bool :=
  match s with
  | [] => true
  | c :: rest =>
      match n with
      | O => false
      | S n' => round c rest && rounds round n' rest
      end
  end.

Fixpoint ends_with (p : ascii -> bool) (s : list ascii) : bool :=
  match s with
  | [] => false
  | [c] => p c
  | _ :: rest => ends_with p rest
  end.

(** The handle ends in a hyphen. *)
Definition trailing_hyphen (s : string) : bool :=
  ends_with Regex.hyphen (list_ascii_of_string s).

(** The value of a string of base-36 digits (lower case). *)
Definition digit_value (c : ascii) : Z :=
  if JS.in_range 48 57 c then JS.charCode c - 48 else JS.charCode c - 87.

Fixpoint value36 (acc : Z) (s : string) : Z :=
  match s with
  | EmptyString => acc
  | String c s' => value36 (36 * acc + digit_value c) s'
  end.

Definition lower_alnum (c : ascii) : bool :=
  JS.in_range 97 122 c || JS.in_range 48 57 c.

Fixpoint string_forall (p : ascii -> bool) (s : string) : bool :=
  match s with
  | EmptyString => true
  | String c s' => p c && string_forall p s'
  end.

(** ** Vocabulary of the further properties *)

(** A request with the given method and (possibly missing) body. *)
Definition request {Data} (m : string) (b : option Data) : Request Data :=
  {| method := m; payload := b |}.

(** The status codes the handlers answer with. *)
Definition known_status (code : nat) : bool :=
  ((code =? 200) || (code =? 400) || (code =? 405) || (code =? 500))%nat.

(** The first test of the referral and of the alpha validator. *)
Definition referral_required_present (d : Referral.ReferralData) : bool :=
  JS.truthy (Referral.referrerName d)
  && JS.truthy (Referral.referrerEmail d)
  && JS.truthy (Referral.friendName d)
  && JS.truthy (Referral.friendEmail d).

Definition alpha_required_present (d : AlphaSignup.AlphaSignupData) : bool :=
  JS.truthy (AlphaSignup.name d)
  && JS.truthy (AlphaSignup.email d)
  && JS.truthy (AlphaSignup.github d)
  && JS.truthy (AlphaSignup.discovery d)
  && JS.truthy (AlphaSignup.motivation d).

(** A call to the email provider: one of its two endpoints, with the
    configured key as bearer token. *)
Definition sendgrid_call (cfg : Config) (r : HttpRequest) : Prop :=
  (req_url r = mail_send_url \/ req_url r = contacts_url)
  /\ req_bearer r = Some (JS.to_string (SENDGRID_API_KEY cfg)).

(** A call to the bot-verification service: no bearer token, a form. *)
Definition verification_call (r : HttpRequest) : Prop :=
  req_url r = siteverify_url /\ req_bearer r = None.

(** What the verification service says, read as the verifiers read it: a
    rejected call and an unreadable body count as a refusal. *)
Definition verdict (o : Outcome) : bool :=
  match o with
  | Responded r =>
      match resp_json_success r with
      | Some b => b
      | None => false
      end
  | NetworkError => false
  end.

(** The GitHub-handle rule in words: one to 39 letters, digits or hyphens,
    no hyphen first or last, no two hyphens in a row. *)
Definition hyphen_or_alnum (c : ascii) : bool :=
  Regex.alnum c || Regex.hyphen c.

Fixpoint no_double_hyphen (s : list ascii) : bool :=
  match s with
  | [] => true
  | c :: rest =>
      negb (Regex.hyphen c && followed_by Regex.hyphen rest)
      && no_double_hyphen rest
  end.

Definition handle_ok (s : string) : bool :=
  let l := list_ascii_of_string s in
  (1 <=? List.length l)%nat
  && (List.length l <=? 39)%nat
  && forallb hyphen_or_alnum l
  && negb (followed_by Regex.hyphen l)
  && negb (ends_with Regex.hyphen l)
  && no_double_hyphen l.

(** The multiplicative string hash with factor 31. *)
Definition poly31 (codes : list Z) : Z :=
  fold_left (fun acc code => (31 * acc + code)%Z) codes 0%Z.

(** Reading a referral code back: the base-36 value of what follows the
    [NC-] prefix. *)
Definition decode_code (code : string) : Z :=
  value36 0 (JS.toLowerCase
               (String.substring 3 (String.length code - 3) code)).

Definition ann_alpha_with_token : AlphaSignup.AlphaSignupData :=
  alpha_request "ann-dev" (Some "XXXX.DUMMY.TOKEN").

Definition ann_foundation : Waitlist.WaitlistData :=
  {| Waitlist.email := Some "a@b.com";
     Waitlist.name := None;
     Waitlist.type := Some "foundation100" |}.

(* ================================================================== *)
(** * Regular expressions: the patterns in closed form *)
(* ================================================================== *)

Section RegexFacts.

Lemma alnum_not_hyphen (c : ascii) :
  Regex.alnum c = true -> Regex.hyphen c = false.
Proof.
  destruct c as [[] [] [] [] [] [] [] []]; vm_compute; congruence.
Qed.

(** The repetition of the source pattern is [rounds code_round]. *)
Lemma code_rep_rounds (n : nat) (s : list ascii) :
  Regex.run
    (Regex.Rep
       (Regex.Alt (Regex.Class Regex.alnum)
          (Regex.Seq (Regex.Class Regex.hyphen)
             (Regex.Look true (Regex.Class Regex.alnum)))) 0 n)
    s Regex.at_end
  = rounds code_round n s.
Proof.
  revert s; induction n as [|n IH]; intros [|c rest]; try reflexivity.
  cbn -[Regex.alnum Regex.hyphen rounds code_round].
  cbn -[Regex.alnum Regex.hyphen rounds code_round] in IH. rewrite IH.
  change (rounds code_round (S n) (c :: rest))
    with (code_round c rest && rounds code_round n rest).
  generalize (rounds code_round n rest) as tail; intros tail.
  unfold code_round, followed_by.
  destruct (Regex.alnum c), (Regex.hyphen c), tail,
    rest as [|c' rest']; try reflexivity;
    cbn -[Regex.alnum Regex.hyphen];
    destruct (Regex.alnum c'); reflexivity.
Qed.

(** The repetition of the specification's pattern is
    [rounds spec_round]. *)
Lemma spec_rep_rounds (n : nat) (s : list ascii) :
  Regex.run
    (Regex.Rep
       (Regex.Alt (Regex.Class Regex.alnum)
          (Regex.Seq (Regex.Class Regex.hyphen)
             (Regex.Look false (Regex.Class Regex.hyphen)))) 0 n)
    s Regex.at_end
  = rounds spec_round n s.
Proof.
  revert s; induction n as [|n IH]; intros [|c rest]; try reflexivity.
  cbn -[Regex.alnum Regex.hyphen rounds spec_round].
  cbn -[Regex.alnum Regex.hyphen rounds spec_round] in IH. rewrite IH.
  change (rounds spec_round (S n) (c :: rest))
    with (spec_round c rest && rounds spec_round n rest).
  generalize (rounds spec_round n rest) as tail; intros tail.
  unfold spec_round, followed_by.
  destruct (Regex.alnum c), (Regex.hyphen c), tail,
    rest as [|c' rest']; try reflexivity;
    cbn -[Regex.alnum Regex.hyphen];
    destruct (Regex.hyphen c'); reflexivity.
Qed.

End RegexFacts.

Section RegexClosedForms.

Lemma run_rep_O r lo s k :
  Regex.run (Regex.Rep r lo 0) s k
  = if (lo =? 0)%nat then k s else false.
Proof. reflexivity. Qed.

Lemma run_rep_S r lo hi s k :
  Regex.run (Regex.Rep r lo (S hi)) s k
  = if Regex.run r s (fun s' => Regex.run (Regex.Rep r (Nat.pred lo) hi) s' k)
    then true
    else if (lo =? 0)%nat then k s else false.
Proof. reflexivity. Qed.

Lemma run_class p c rest k :
  Regex.run (Regex.Class p) (c :: rest) k = if p c then k rest else false.
Proof. reflexivity. Qed.

Lemma run_class_seq p r c rest k :
  Regex.run (Regex.Seq (Regex.Class p) r) (c :: rest) k
  = if p c then Regex.run r rest k else false.
Proof. reflexivity. Qed.

Lemma code_pattern_closed (s : string) :
  Regex.test AlphaSignup.githubPattern s
  = match list_ascii_of_string s with
    | [] => false
    | c :: rest => Regex.alnum c && rounds code_round 38 rest
    end.
Proof.
  unfold Regex.test, AlphaSignup.githubPattern.
  destruct (list_ascii_of_string s) as [|c rest]; [reflexivity|].
  rewrite run_class_seq, code_rep_rounds.
  destruct (Regex.alnum c); reflexivity.
Qed.

Lemma spec_pattern_closed (s : string) :
  Regex.test Spec.githubPattern s
  = match list_ascii_of_string s with
    | [] => false
    | c :: rest => Regex.alnum c && rounds spec_round 38 rest
    end.
Proof.
  unfold Regex.test, Spec.githubPattern.
  destruct (list_ascii_of_string s) as [|c rest]; [reflexivity|].
  rewrite run_class_seq, spec_rep_rounds.
  destruct (Regex.alnum c); reflexivity.
Qed.

(** The source pattern is the specification's pattern on the inputs that
    do not end in a hyphen. *)
Lemma rounds_code_spec (s : list ascii) :
  forall n,
    rounds code_round n s
    = rounds spec_round n s && negb (ends_with Regex.hyphen s).
Proof.
  induction s as [|c rest IH]; intros [|n]; try reflexivity.
  change (rounds code_round (S n) (c :: rest))
    with (code_round c rest && rounds code_round n rest).
  change (rounds spec_round (S n) (c :: rest))
    with (spec_round c rest && rounds spec_round n rest).
  rewrite IH. clear IH.
  destruct rest as [|c' rest'].
  - change (rounds spec_round n []) with true.
    unfold code_round, spec_round, followed_by, ends_with.
    destruct (Regex.alnum c) eqn:Ea; [rewrite (alnum_not_hyphen _ Ea)|];
      destruct (Regex.hyphen c); reflexivity.
  - change (ends_with Regex.hyphen (c :: c' :: rest'))
      with (ends_with Regex.hyphen (c' :: rest')).
    generalize (ends_with Regex.hyphen (c' :: rest')) as e; intros e.
    destruct n as [|m].
    + change (rounds spec_round 0 (c' :: rest')) with false.
      now rewrite !andb_false_r.
    + change (rounds spec_round (S m) (c' :: rest'))
        with (spec_round c' rest' && rounds spec_round m rest').
      generalize (rounds spec_round m rest') as t; intros t.
      unfold code_round, spec_round. cbn [followed_by].
      generalize (followed_by Regex.hyphen rest') as h; intros h.
      destruct (Regex.alnum c') eqn:Ea';
        [rewrite (alnum_not_hyphen _ Ea')|];
        destruct (Regex.alnum c), (Regex.hyphen c), (Regex.hyphen c'),
          t, e, h; reflexivity.
Qed.

Lemma code_pattern_spec_pattern (s : string) :
  Regex.test AlphaSignup.githubPattern s
  = Regex.test Spec.githubPattern s && negb (trailing_hyphen s).
Proof.
  rewrite code_pattern_closed, spec_pattern_closed.
  unfold trailing_hyphen.
  destruct (list_ascii_of_string s) as [|c rest]; [reflexivity|].
  rewrite rounds_code_spec.
  destruct rest as [|c' rest'].
  - cbn -[Regex.alnum Regex.hyphen].
    destruct (Regex.alnum c) eqn:Ea; [rewrite (alnum_not_hyphen _ Ea)|];
      reflexivity.
  - change (ends_with Regex.hyphen (c :: c' :: rest'))
      with (ends_with Regex.hyphen (c' :: rest')).
    now rewrite andb_assoc.
Qed.

(** A bounded repetition of a character class accepts exactly-classed
    inputs of a fitting length. *)
Lemma rep_class_accepts p :
  forall hi lo l,
    forallb p l = true ->
    (lo <= List.length l <= hi)%nat ->
    Regex.run (Regex.Rep (Regex.Class p) lo hi) l Regex.at_end = true.
Proof.
  induction hi as [|hi IH]; intros lo l Hp Hlen.
  - rewrite run_rep_O.
    destruct l; cbn in Hlen; [|lia].
    replace lo with 0%nat by lia. reflexivity.
  - rewrite run_rep_S. destruct l as [|c l'].
    + cbn in Hlen. replace lo with 0%nat by lia. reflexivity.
    + cbn in Hp. apply andb_true_iff in Hp as [Hc Hl].
      rewrite run_class, Hc.
      rewrite IH; [reflexivity|assumption|cbn in Hlen; lia].
Qed.

End RegexClosedForms.

(* ================================================================== *)
(** * Numbers: [toString(36)] and the referral hash *)
(* ================================================================== *)

Section Base36.

Local Open Scope Z_scope.

Lemma below_36_cases (P : Z -> Prop) :
  (forall k : nat, (k < 36)%nat -> P (Z.of_nat k)) ->
  forall d, 0 <= d < 36 -> P d.
Proof.
  intros H d Hd. rewrite <- (Z2Nat.id d) by lia. apply H. lia.
Qed.

Lemma digit36_lower (d : Z) :
  0 <= d < 36 -> lower_alnum (JS.digit36 d) = true.
Proof.
  apply (below_36_cases (fun d => lower_alnum (JS.digit36 d) = true)).
  intros k Hk.
  do 36 (destruct k as [|k]; [vm_compute; reflexivity|]). lia.
Qed.

Lemma digit36_value (d : Z) :
  0 <= d < 36 -> digit_value (JS.digit36 d) = d.
Proof.
  apply (below_36_cases (fun d => digit_value (JS.digit36 d) = d)).
  intros k Hk.
  do 36 (destruct k as [|k]; [vm_compute; reflexivity|]). lia.
Qed.

Lemma upper_of_lower (c : ascii) :
  lower_alnum c = true -> Regex.upper_alnum (JS.upper_char c) = true.
Proof.
  destruct c as [[] [] [] [] [] [] [] []]; vm_compute; congruence.
Qed.

Lemma digits36_lower (fuel : nat) :
  forall n acc,
    string_forall lower_alnum acc = true ->
    string_forall lower_alnum (JS.digits36 fuel n acc) = true.
Proof.
  induction fuel as [|fuel IH]; intros n acc Hacc; cbn [JS.digits36].
  - assumption.
  - destruct (n <=? 0) eqn:En; [assumption|].
    apply IH. cbn [string_forall]. rewrite Hacc, digit36_lower.
    + reflexivity.
    + apply Z.mod_pos_bound. lia.
Qed.

Lemma digits36_length (fuel : nat) :
  forall n acc,
    (String.length acc <= String.length (JS.digits36 fuel n acc))%nat.
Proof.
  induction fuel as [|fuel IH]; intros n acc; cbn [JS.digits36].
  - lia.
  - destruct (n <=? 0); [lia|].
    etransitivity; [|apply IH]. cbn. lia.
Qed.

Lemma toString36_lower (n : Z) :
  string_forall lower_alnum (JS.toString36 n) = true.
Proof.
  unfold JS.toString36. destruct (n <=? 0); [reflexivity|].
  now apply digits36_lower.
Qed.

Lemma toString36_nonempty (n : Z) :
  (1 <= String.length (JS.toString36 n))%nat.
Proof.
  unfold JS.toString36. destruct (n <=? 0) eqn:En; [cbn; lia|].
  cbn [JS.digits36]. rewrite En.
  etransitivity; [|apply digits36_length]. cbn. lia.
Qed.

(** Reading a digit string: the accumulator is shifted by its length. *)
Lemma value36_shift (s : string) :
  forall acc,
    value36 acc s
    = acc * 36 ^ Z.of_nat (String.length s) + value36 0 s.
Proof.
  induction s as [|c s IH]; intros acc.
  - cbn. lia.
  - cbn [value36 String.length]. rewrite IH, (IH (36 * 0 + digit_value c)).
    rewrite Nat2Z.inj_succ, Z.pow_succ_r by lia. ring.
Qed.

(** With enough fuel the digits read back as the number. *)
Lemma digits36_value (fuel : nat) :
  forall n acc,
    0 <= n < 36 ^ Z.of_nat fuel ->
    value36 0 (JS.digits36 fuel n acc)
    = n * 36 ^ Z.of_nat (String.length acc) + value36 0 acc.
Proof.
  induction fuel as [|fuel IH]; intros n acc Hn.
  - cbn in Hn. cbn [JS.digits36]. replace n with 0 by lia. lia.
  - cbn [JS.digits36]. destruct (n <=? 0) eqn:En.
    + apply Z.leb_le in En. replace n with 0 by lia. lia.
    + apply Z.leb_gt in En.
      rewrite Nat2Z.inj_succ, Z.pow_succ_r in Hn by lia.
      rewrite IH.
      * cbn [value36 String.length].
        rewrite (value36_shift acc), digit36_value
          by (apply Z.mod_pos_bound; lia).
        rewrite Nat2Z.inj_succ, Z.pow_succ_r by lia.
        rewrite (Z.div_mod n 36) at 3 by lia. ring.
      * split; [apply Z.div_pos; lia|].
        apply Z.div_lt_upper_bound; lia.
Qed.

(** [toString(36)] is faithful: the fuel it takes is enough. *)
Lemma toString36_value (n : Z) :
  0 <= n -> value36 0 (JS.toString36 n) = n.
Proof.
  intros Hn. unfold JS.toString36. destruct (n <=? 0) eqn:En.
  - apply Z.leb_le in En. replace n with 0 by lia. reflexivity.
  - apply Z.leb_gt in En. rewrite digits36_value.
    + cbn. lia.
    + split; [lia|].
      pose proof (Z.log2_nonneg n) as Hl.
      rewrite Nat2Z.inj_succ, Z2Nat.id by assumption.
      apply Z.lt_le_trans with (2 ^ Z.succ (Z.log2 n)).
      * apply Z.log2_spec. lia.
      * apply Z.pow_le_mono_l. lia.
Qed.

End Base36.

Section ReferralCodeShape.

Lemma toUpperCase_upper (s : string) :
  string_forall lower_alnum s = true ->
  string_forall Regex.upper_alnum (JS.toUpperCase s) = true.
Proof.
  induction s as [|c s IH]; cbn [string_forall JS.toUpperCase];
    [reflexivity|].
  intros H. apply andb_true_iff in H as [Hc Hs].
  now rewrite (upper_of_lower _ Hc), IH.
Qed.

Lemma toUpperCase_length (s : string) :
  String.length (JS.toUpperCase s) = String.length s.
Proof. induction s as [|c s IH]; cbn; congruence. Qed.

Lemma slice0_forall p (n : nat) :
  forall s,
    string_forall p s = true -> string_forall p (JS.slice0 n s) = true.
Proof.
  unfold JS.slice0.
  induction n as [|n IH]; intros [|c s] H; try reflexivity.
  cbn [string_forall] in H. apply andb_true_iff in H as [Hc Hs].
  cbn [String.substring string_forall]. now rewrite Hc, IH.
Qed.

Lemma slice0_length (n : nat) :
  forall s, String.length (JS.slice0 n s) = Nat.min n (String.length s).
Proof.
  unfold JS.slice0.
  induction n as [|n IH]; intros [|c s]; try reflexivity.
  cbn [String.substring String.length]. now rewrite IH.
Qed.

Lemma string_forall_forallb p (s : string) :
  forallb p (list_ascii_of_string s) = string_forall p s.
Proof. induction s as [|c s IH]; cbn; congruence. Qed.

Lemma length_list_ascii (s : string) :
  List.length (list_ascii_of_string s) = String.length s.
Proof. induction s as [|c s IH]; cbn; congruence. Qed.

(** Every code built from a hash has the shape [NC-] plus one to six
    upper-case base-36 digits. *)
Lemma code_of_hash_shape (hash : Z) :
  Regex.test Spec.referralCodePattern (Referral.code_of_hash hash) = true.
Proof.
  unfold Referral.code_of_hash.
  set (body := JS.slice0 6 (JS.toUpperCase (JS.toString36 (Z.abs hash)))).
  unfold Regex.test, Spec.referralCodePattern.
  change (list_ascii_of_string ("NC-" ++ body))
    with ("N"%char :: "C"%char :: "-"%char :: list_ascii_of_string body).
  rewrite !run_class_seq.
  change (Regex.is_char "N" "N") with true.
  change (Regex.is_char "C" "C") with true.
  change (Regex.is_char "-" "-") with true.
  cbv iota. apply rep_class_accepts.
  - rewrite string_forall_forallb. subst body.
    apply slice0_forall, toUpperCase_upper, toString36_lower.
  - rewrite length_list_ascii. subst body.
    rewrite slice0_length, toUpperCase_length.
    pose proof (toString36_nonempty (Z.abs hash)). lia.
Qed.

Local Open Scope Z_scope.

Lemma toInt32_range (v : Z) : - 2 ^ 31 <= JS.toInt32 v < 2 ^ 31.
Proof.
  unfold JS.toInt32.
  pose proof (Z.mod_pos_bound v (2 ^ 32) ltac:(lia)) as H.
  destruct (v mod 2 ^ 32 <? 2 ^ 31) eqn:E;
    [apply Z.ltb_lt in E | apply Z.ltb_ge in E]; lia.
Qed.

Lemma hash_step_bound (acc code : Z) :
  0 <= code < 65536 ->
  Z.abs (Referral.hash_step acc code) <= Z.abs acc + (2 ^ 31 + 65535).
Proof.
  intros Hc. unfold Referral.hash_step, JS.shl.
  pose proof (toInt32_range
                (Z.shiftl (JS.toInt32 acc) (Z.land 5 31))) as H.
  lia.
Qed.

(** The accumulator grows by less than 2^31 + 2^16 a character, so the
    hash of an email of fewer than 2^21 code units stays below 2^53,
    where numbers are exact. *)
Lemma hash_units_bound (codes : list Z) :
  Forall (fun c => 0 <= c < 65536) codes ->
  Z.abs (Referral.hash_units codes)
  <= Z.of_nat (List.length codes) * (2 ^ 31 + 65535).
Proof.
  unfold Referral.hash_units.
  assert (G : forall l acc,
             Forall (fun c => 0 <= c < 65536) l ->
             Z.abs (fold_left Referral.hash_step l acc)
             <= Z.abs acc + Z.of_nat (List.length l) * (2 ^ 31 + 65535)).
  { induction l as [|c l IH]; intros acc Hl.
    - cbn. lia.
    - inversion Hl as [|? ? Hc Hl']; subst. cbn [fold_left List.length].
      specialize (IH (Referral.hash_step acc c) Hl').
      pose proof (hash_step_bound acc c Hc). lia. }
  intros H. specialize (G codes 0 H). cbn in G. lia.
Qed.

Lemma hash_units_exact (codes : list Z) :
  Forall (fun c => 0 <= c < 65536) codes ->
  Z.of_nat (List.length codes) < 2 ^ 21 ->
  Z.abs (Referral.hash_units codes) < 2 ^ 53.
Proof.
  intros H Hlen. pose proof (hash_units_bound codes H) as B. nia.
Qed.

End ReferralCodeShape.

(* ================================================================== *)
(** * Running the handlers *)
(* ================================================================== *)

(** The handlers are straight-line code over [fetch]: a run is decided by
    the validation tests and by the outcomes of at most four calls.  The
    proofs below execute a handler symbolically and split on those. *)

(** Expose the body of a handler run on a [POST] request. *)
Ltac unfold_handlers :=
  unfold result, trace, run, post,
    Waitlist.handler, Waitlist.addToContactList,
    Referral.handler, Referral.addReferralContacts,
    AlphaSignup.handler, AlphaSignup.dispatch, AlphaSignup.verifyTurnstile,
    AlphaSignup.sendAdminNotification, AlphaSignup.sendUserConfirmation,
    AlphaSignup.addToContactList;
  cbn [method payload String.eqb Ascii.eqb Bool.eqb negb].

(** Reduce, keeping the tests on request fields and the payload builders
    folded. *)
Ltac crunch :=
  cbn -[JS.truthy JS.includes JS.to_string JS.or_else JS.toLowerCase
        Regex.test Nat.ltb Nat.leb String.eqb String.append String.length
        Referral.generateReferralCode firstn
        Waitlist.user_mail Waitlist.admin_mail
        Referral.friend_mail Referral.referrer_mail Referral.admin_mail
        AlphaSignup.admin_mail AlphaSignup.user_mail
        post_mail put_contacts post_form].

(** Case split on the next test the run is stuck on: a truthiness test,
    the outcome of a call, an optional part of a response, any other
    condition. *)
Ltac split_test :=
  match goal with
  | |- context [if JS.truthy ?x then _ else _] =>
      let E := fresh "Et" in destruct (JS.truthy x) eqn:E
  | |- context [if negb (JS.truthy ?x) then _ else _] =>
      let E := fresh "Et" in destruct (JS.truthy x) eqn:E
  | |- context [if JS.truthy ?x && _ then _ else _] =>
      let E := fresh "Et" in destruct (JS.truthy x) eqn:E
  | |- context [match ?w ?k with NetworkError => _ | Responded _ => _ end] =>
      let E := fresh "Ew" in destruct (w k) as [|?] eqn:E
  | |- context [match ?o with Some _ => _ | None => _ end] =>
      let E := fresh "Eo" in destruct o eqn:E
  | |- context [if ?b then _ else _] =>
      let E := fresh "Eb" in destruct b eqn:E
  end.

Ltac explore := repeat (crunch; split_test); crunch.

(** Split a validity hypothesis into its tests and rewrite with them. *)
Ltac use_facts :=
  unfold waitlist_valid, referral_valid, referral_fields_ok, self_referral,
    alpha_valid, alpha_fields_ok in *;
  repeat match goal with
    | H : _ && _ = true |- _ => apply andb_true_iff in H; destruct H
    | H : negb _ = true |- _ => apply negb_true_iff in H
    end;
  repeat match goal with
    | H : _ = true |- _ => rewrite H; clear H
    | H : _ = false |- _ => rewrite H; clear H
    end.

Ltac unfold_monad :=
  unfold try_catch, bind, fetch, ret, throw, console, json_success, text.

(** The calls of an alpha run: the bot verification when it runs, then an
    initial segment of the three jobs. *)
Lemma alpha_calls_shape cfg d w :
  alpha_valid d = true ->
  exists k,
    calls (trace (AlphaSignup.handler cfg (post d)) w)
    = alpha_verification cfg d ++ firstn k (alpha_jobs cfg d).
Proof.
  intros Hv.
  unfold alpha_verification, alpha_jobs, bot_check_runs.
  unfold_handlers. use_facts. unfold_monad. explore.
  all: first [ exists 0%nat; reflexivity | exists 1%nat; reflexivity
             | exists 2%nat; reflexivity | exists 3%nat; reflexivity ].
Qed.

(** Once validation and the bot check let a request through, the alpha
    handler answers 200 whatever the email API does. *)
Lemma alpha_accepts cfg d w :
  alpha_valid d = true ->
  bot_check_passes cfg d w = true ->
  result (AlphaSignup.handler cfg (post d)) w
  = Normal (respond 200 (SuccessBody "Alpha access request submitted!")).
Proof.
  intros Hv Hb. unfold bot_check_passes, bot_check_runs in Hb.
  revert Hb. unfold_handlers. use_facts. unfold_monad. explore.
  all: intros Hb; first [discriminate Hb | reflexivity].
Qed.

(** A request the alpha validator rejects causes no outbound call. *)
Lemma alpha_invalid_no_calls cfg d w :
  alpha_valid d = false ->
  calls (trace (AlphaSignup.handler cfg (post d)) w) = [].
Proof.
  unfold alpha_valid, alpha_fields_ok.
  unfold_handlers. unfold_monad.
  generalize (Regex.test AlphaSignup.githubPattern
                (JS.to_string (AlphaSignup.github d))) as handle_ok.
  intros handle_ok Hv.
  destruct (JS.truthy (AlphaSignup.name d)); [|reflexivity].
  destruct (JS.truthy (AlphaSignup.email d)); [|reflexivity].
  destruct (JS.truthy (AlphaSignup.github d)); [|reflexivity].
  destruct (JS.truthy (AlphaSignup.discovery d)); [|reflexivity].
  destruct (JS.truthy (AlphaSignup.motivation d)); [|reflexivity].
  destruct (JS.includes "@" (JS.to_string (AlphaSignup.email d)));
    [|reflexivity].
  destruct (String.length (JS.to_string (AlphaSignup.motivation d)) <? 20)%nat;
    [reflexivity|].
  cbn [andb negb orb] in Hv. subst handle_ok. reflexivity.
Qed.

Lemma in_initial_segment {A} (x : A) (k : nat) :
  forall l, In x (firstn k l) -> In x l.
Proof.
  induction k as [|k IH]; intros [|y l] H; cbn in H; try contradiction.
  destruct H as [->|H]; [now left | right; now apply IH].
Qed.

(** No handler lets an exception escape: whatever the request and the
    world, the run ends with a response. *)
Lemma handlers_always_answer (cfg : Config) (w : World) :
  (forall req, exists resp,
      result (Waitlist.handler cfg req) w = Normal resp)
  /\ (forall req, exists resp,
         result (Referral.handler cfg req) w = Normal resp)
  /\ (forall req, exists resp,
         result (AlphaSignup.handler cfg req) w = Normal resp).
Proof.
  split; [|split]; intros [m [d|]].
  all: unfold result, run, Waitlist.handler, Waitlist.addToContactList,
         Referral.handler, Referral.addReferralContacts,
         AlphaSignup.handler, AlphaSignup.dispatch,
         AlphaSignup.verifyTurnstile, AlphaSignup.sendAdminNotification,
         AlphaSignup.sendUserConfirmation, AlphaSignup.addToContactList.
  all: cbn [method payload].
  all: try generalize (Regex.test AlphaSignup.githubPattern
                         (JS.to_string (AlphaSignup.github d))) as handle_ok;
       try intros handle_ok.
  all: destruct (m =? "OPTIONS"); [eexists; reflexivity|].
  all: destruct (m =? "POST"); [|eexists; reflexivity].
  all: unfold_monad; explore.
  all: eexists; reflexivity.
Qed.

(* ================================================================== *)
(** * The bot verifier *)
(* ================================================================== *)

(** C4.  With the secret configured and the token empty or absent,
    [verifyTurnstileToken] returns [false] and adds nothing but a log line
    to the trace: no outbound call is made.  The alpha handler's own
    verifier is never entered with such a token: every call the handler
    sends to the verification endpoint carries a non-empty token. *)
Theorem C4_verify_empty_token
    (token secretKey remoteip : JS.value) (w : World) (tr : Trace)
    (cfg : Config) (d : AlphaSignup.AlphaSignupData) (w' : World)
    (Hsecret : JS.truthy secretKey = true)
    (Htoken : JS.truthy token = false) :
  Turnstile.verifyTurnstileToken token secretKey remoteip w tr
  = (Normal false, tr ++ [Log LInfo "No Turnstile token provided"])
  /\ calls (snd (Turnstile.verifyTurnstileToken token secretKey remoteip w tr))
     = calls tr
  /\ (forall r,
         In r (calls (trace (AlphaSignup.handler cfg (post d)) w')) ->
         req_url r = siteverify_url ->
         exists secret response,
           req_payload r = Form [("secret", secret); ("response", response)]
           /\ response <> EmptyString).
Proof.
  assert (E : Turnstile.verifyTurnstileToken token secretKey remoteip w tr
              = (Normal false,
                 tr ++ [Log LInfo "No Turnstile token provided"])).
  { unfold Turnstile.verifyTurnstileToken. rewrite Hsecret, Htoken.
    reflexivity. }
  split; [exact E|]. split.
  - rewrite E. cbn [snd]. clear.
    induction tr as [|[r|l s] tr IH]; cbn; congruence.
  - clear. intros r Hin Hurl.
    destruct (alpha_valid d) eqn:Hv.
    + destruct (alpha_calls_shape cfg d w' Hv) as [k Hk].
      rewrite Hk in Hin. apply in_app_or in Hin as [Hin|Hin].
      * unfold alpha_verification, bot_check_runs in Hin.
        destruct (JS.truthy (TURNSTILE_SECRET_KEY cfg)); [|contradiction].
        destruct (AlphaSignup.turnstileToken d) as [t|]; [|contradiction].
        cbn [andb JS.truthy] in Hin.
        destruct (t =? EmptyString) eqn:Et; [contradiction|].
        destruct Hin as [<-|[]]. cbn.
        eexists _, _. split; [reflexivity|].
        now apply String.eqb_neq.
      * apply in_initial_segment in Hin. unfold alpha_jobs in Hin.
        cbn [In] in Hin.
        destruct Hin as [<-|[<-|[<-|[]]]]; discriminate Hurl.
    + rewrite (alpha_invalid_no_calls cfg d w' Hv) in Hin. contradiction.
Qed.

Lemma C4_verify_empty_token_witness :
  Turnstile.verifyTurnstileToken (Some EmptyString) (Some "0x4AAA-secret")
    None (fun _ => Responded ok_response) []
  = (Normal false, [Log LInfo "No Turnstile token provided"]).
Proof.
  exact (proj1 (C4_verify_empty_token (Some EmptyString)
                  (Some "0x4AAA-secret") None
                  (fun _ => Responded ok_response) []
                  {| SENDGRID_API_KEY := None;
                     TURNSTILE_SECRET_KEY := None |}
                  {| AlphaSignup.name := None; AlphaSignup.email := None;
                     AlphaSignup.github := None;
                     AlphaSignup.discovery := None;
                     AlphaSignup.motivation := None;
                     AlphaSignup.turnstileToken := None |}
                  (fun _ => NetworkError)
                  eq_refl eq_refl)).
Defined.

(* ================================================================== *)
(** * Validation *)
(* ================================================================== *)

(** C7.  A referral whose required fields are present, whose two emails
    contain an at-sign and are equal up to case is answered 400 with the
    error [You cannot refer yourself]; the run leaves an empty trace, so no
    outbound call is made. *)
Theorem C7_self_referral_rejected
    (cfg : Config) (d : Referral.ReferralData) (w : World)
    (Hfields : referral_fields_ok d = true)
    (Hsame : JS.toLowerCase (JS.to_string (Referral.referrerEmail d))
             = JS.toLowerCase (JS.to_string (Referral.friendEmail d))) :
  run (Referral.handler cfg (post d)) w
  = (Normal (respond 400 (ErrorBody "You cannot refer yourself")), [])
  /\ calls (trace (Referral.handler cfg (post d)) w) = [].
Proof.
  apply String.eqb_eq in Hsame.
  assert (E : run (Referral.handler cfg (post d)) w
              = (Normal (respond 400 (ErrorBody "You cannot refer yourself")),
                 [])).
  { unfold_handlers. use_facts. reflexivity. }
  split; [exact E|]. unfold trace. now rewrite E.
Qed.

Lemma C7_self_referral_rejected_witness :
  run (Referral.handler configured (post ann_refers_herself)) friendly
  = (Normal (respond 400 (ErrorBody "You cannot refer yourself")), []).
Proof.
  exact (proj1 (C7_self_referral_rejected configured ann_refers_herself
                  friendly eq_refl eq_refl)).
Defined.

(** C9.  In the alpha handler, with the bot-verification secret configured
    and the token absent or empty, the bot check is skipped: the request is
    logged and answered 200, and no call of the run goes to the
    verification endpoint. *)
Theorem C9_bot_check_skipped_without_token
    (cfg : Config) (d : AlphaSignup.AlphaSignupData) (w : World)
    (Hsecret : JS.truthy (TURNSTILE_SECRET_KEY cfg) = true)
    (Htoken : JS.truthy (AlphaSignup.turnstileToken d) = false)
    (Hvalid : alpha_valid d = true) :
  result (AlphaSignup.handler cfg (post d)) w
  = Normal (respond 200 (SuccessBody "Alpha access request submitted!"))
  /\ Forall (fun r => req_url r <> siteverify_url)
       (calls (trace (AlphaSignup.handler cfg (post d)) w))
  /\ In (LInfo, "🎉 NEW ALPHA SIGNUP:")
       (logs (trace (AlphaSignup.handler cfg (post d)) w)).
Proof.
  split; [|split].
  - apply alpha_accepts; [assumption|].
    unfold bot_check_passes, bot_check_runs. now rewrite Hsecret, Htoken.
  - destruct (alpha_calls_shape cfg d w Hvalid) as [k ->].
    unfold alpha_verification, bot_check_runs. rewrite Hsecret, Htoken.
    cbn [andb app]. apply Forall_forall. intros r Hin.
    apply in_initial_segment in Hin. unfold alpha_jobs in Hin.
    cbn [In] in Hin. destruct Hin as [<-|[<-|[<-|[]]]]; discriminate.
  - unfold_handlers. use_facts. unfold_monad. explore.
    all: now left.
Qed.

Lemma C9_bot_check_skipped_without_token_witness :
  result (AlphaSignup.handler guarded (post ann_alpha)) friendly
  = Normal (respond 200 (SuccessBody "Alpha access request submitted!")).
Proof.
  exact (proj1 (C9_bot_check_skipped_without_token guarded ann_alpha friendly
                  eq_refl eq_refl eq_refl)).
Defined.

(** C10.  The waitlist handler validates the email and nothing else: a
    body whose email is present and contains an at-sign is never answered
    400, whatever its name and type (absent included), and a body failing
    that test is answered 400.  When the type is anything but
    [foundation100], the first call is the plain waitlist mail (waitlist
    subject, waitlist template, name defaulting to [there]), the admin
    notice carries the waitlist subject, and the submission is answered 200
    when every call succeeds. *)
Theorem C10_waitlist_validates_email_only
    (cfg : Config) (d : Waitlist.WaitlistData) (w : World)
    (Hvalid : waitlist_valid d = true)
    (Hkey : JS.truthy (SENDGRID_API_KEY cfg) = true)
    (Htype : Waitlist.type d <> Some "foundation100") :
  (forall resp,
      result (Waitlist.handler cfg (post d)) w = Normal resp ->
      status resp <> 400)
  /\ (forall d',
         waitlist_valid d' = false ->
         result (Waitlist.handler cfg (post d')) w
         = Normal (respond 400 (ErrorBody "Valid email required")))
  /\ hd_error (calls (trace (Waitlist.handler cfg (post d)) w))
     = Some (post_mail (SENDGRID_API_KEY cfg)
               {| mail_to := JS.to_string (Waitlist.email d);
                  mail_from := "noreply@neuralcommander.ai";
                  mail_from_name := "Neural Commander";
                  mail_subject :=
                    "🚀 You're on the Neural Commander Waitlist!";
                  mail_content :=
                    getWaitlistEmail (JS.or_else (Waitlist.name d) "there")
               |})
  /\ (all_succeed w ->
      result (Waitlist.handler cfg (post d)) w
      = Normal (respond 200
                  (SuccessBody "Successfully joined the waitlist!"))
      /\ calls (trace (Waitlist.handler cfg (post d)) w)
         = [ post_mail (SENDGRID_API_KEY cfg)
               (Waitlist.user_mail (JS.to_string (Waitlist.email d))
                  (Waitlist.name d) (Waitlist.type d));
             post_mail (SENDGRID_API_KEY cfg)
               {| mail_to := Waitlist.ADMIN_EMAIL;
                  mail_from := "noreply@neuralcommander.ai";
                  mail_from_name := "NC Waitlist";
                  mail_subject :=
                    "📋 New Waitlist Signup: "
                    ++ JS.to_string (Waitlist.email d);
                  mail_content :=
                    WaitlistAdminHtml (JS.to_string (Waitlist.email d))
                      (JS.or_else (Waitlist.name d) "Not provided")
                      (Waitlist.type d) |};
             put_contacts (SENDGRID_API_KEY cfg)
               [ {| contact_email := JS.to_string (Waitlist.email d);
                    contact_first_name :=
                      JS.or_else (Waitlist.name d) EmptyString;
                    contact_custom_fields :=
                      [("signup_type", Waitlist.type d)] |} ] ]).
Proof.
  assert (Hplain : Waitlist.is_foundation100 (Waitlist.type d) = false).
  { unfold Waitlist.is_foundation100.
    destruct (Waitlist.type d) as [t|]; [|reflexivity].
    apply String.eqb_neq. congruence. }
  split; [|split; [|split]].
  - intros resp. unfold_handlers. use_facts. unfold_monad. explore.
    all: intros [= <-]; discriminate.
  - intros d' Hd'. unfold waitlist_valid in Hd'.
    unfold_handlers.
    destruct (JS.truthy (Waitlist.email d')); [|reflexivity].
    cbn [andb] in Hd'. now rewrite Hd'.
  - unfold_handlers. unfold Waitlist.user_mail, Waitlist.FROM_EMAIL.
    use_facts. unfold_monad. explore.
    all: reflexivity.
  - intros Hw.
    destruct (Hw 0%nat) as (r0 & E0 & Ok0 & _).
    destruct (Hw 1%nat) as (r1 & E1 & Ok1 & _).
    destruct (Hw 2%nat) as (r2 & E2 & _).
    unfold_handlers. unfold Waitlist.admin_mail, Waitlist.FROM_EMAIL.
    use_facts. unfold_monad. crunch.
    rewrite E0. crunch. rewrite Ok0. crunch.
    rewrite E1. crunch. rewrite Ok1. crunch.
    rewrite E2. crunch. split; reflexivity.
Qed.

Lemma C10_waitlist_validates_email_only_witness :
  result (Waitlist.handler configured (post bare_waitlist)) friendly
  = Normal (respond 200 (SuccessBody "Successfully joined the waitlist!")).
Proof.
  refine (proj1 (proj2 (proj2 (proj2
            (C10_waitlist_validates_email_only configured bare_waitlist
               friendly eq_refl eq_refl _))) _)).
  - discriminate.
  - intros k. exists ok_response. repeat split.
Defined.

(* ================================================================== *)
(** * Configuration and failure handling *)
(* ================================================================== *)

(** C3.  Without an email-service key, a valid waitlist or referral
    submission is answered 500 [Email service not configured] after one
    error log line and before any outbound call, while a valid alpha
    submission that gets past the bot check is logged and answered 200:
    its only possible outbound call is the bot verification, no email or
    contact call is made. *)
Theorem C3_email_service_not_configured
    (cfg : Config) (dw : Waitlist.WaitlistData) (dr : Referral.ReferralData)
    (da : AlphaSignup.AlphaSignupData) (w : World)
    (Hkey : JS.truthy (SENDGRID_API_KEY cfg) = false)
    (Hwaitlist : waitlist_valid dw = true)
    (Hreferral : referral_valid dr = true)
    (Halpha : alpha_valid da = true)
    (Hbot : bot_check_passes cfg da w = true) :
  run (Waitlist.handler cfg (post dw)) w
  = (Normal (respond 500 (ErrorBody "Email service not configured")),
     [Log LError "SendGrid API key not configured"])
  /\ run (Referral.handler cfg (post dr)) w
     = (Normal (respond 500 (ErrorBody "Email service not configured")),
        [Log LError "SendGrid API key not configured"])
  /\ result (AlphaSignup.handler cfg (post da)) w
     = Normal (respond 200 (SuccessBody "Alpha access request submitted!"))
  /\ calls (trace (AlphaSignup.handler cfg (post da)) w)
     = alpha_verification cfg da
  /\ logs (trace (AlphaSignup.handler cfg (post da)) w)
     = [ (LInfo, "🎉 NEW ALPHA SIGNUP:");
         (LInfo,
          "SendGrid not configured - signup logged but no emails sent") ].
Proof.
  split; [|split; [|split; [|split]]].
  - clear Hreferral Halpha Hbot.
    unfold_handlers. use_facts. reflexivity.
  - clear Hwaitlist Halpha Hbot.
    unfold_handlers. use_facts. reflexivity.
  - now apply alpha_accepts.
  - clear Hwaitlist Hreferral. revert Hbot.
    unfold bot_check_passes, alpha_verification, bot_check_runs.
    unfold_handlers. use_facts. unfold_monad. explore.
    all: intros Hbot; first [discriminate Hbot | reflexivity].
  - clear Hwaitlist Hreferral. revert Hbot.
    unfold bot_check_passes, bot_check_runs.
    unfold_handlers. use_facts. unfold_monad. explore.
    all: intros Hbot; first [discriminate Hbot | reflexivity].
Qed.

Lemma C3_email_service_not_configured_witness :
  run (Waitlist.handler unconfigured (post ann_waitlist)) friendly
  = (Normal (respond 500 (ErrorBody "Email service not configured")),
     [Log LError "SendGrid API key not configured"])
  /\ result (AlphaSignup.handler unconfigured (post ann_alpha)) friendly
     = Normal (respond 200 (SuccessBody "Alpha access request submitted!")).
Proof.
  pose proof (C3_email_service_not_configured unconfigured ann_waitlist
                ann_referral ann_alpha friendly
                eq_refl eq_refl eq_refl eq_refl eq_refl) as H.
  exact (conj (proj1 H) (proj1 (proj2 (proj2 H)))).
Defined.

(** C1, as the code has it.  In the waitlist and the referral handler the
    first call, the end-user mail, is critical: when it gets a non-success
    response the handler makes no further call and answers 500 with its
    generic error body.  The alpha handler has no critical email: it reads
    the response of none of its calls, and a valid submission that gets
    past the bot check is answered 200 whatever the email API answers. *)
Theorem C1_critical_email_failure
    (cfg : Config) (dw : Waitlist.WaitlistData) (dr : Referral.ReferralData)
    (da : AlphaSignup.AlphaSignupData) (w : World) (r : HttpResponse)
    (Hkey : JS.truthy (SENDGRID_API_KEY cfg) = true)
    (Hwaitlist : waitlist_valid dw = true)
    (Hreferral : referral_valid dr = true)
    (Halpha : alpha_valid da = true)
    (Hfirst : w 0%nat = Responded r)
    (Hfailed : resp_ok r = false) :
  (result (Waitlist.handler cfg (post dw)) w
   = Normal (respond 500 (ErrorBody "Failed to process signup"))
   /\ calls (trace (Waitlist.handler cfg (post dw)) w)
      = firstn 1 (waitlist_jobs cfg dw))
  /\ (result (Referral.handler cfg (post dr)) w
      = Normal (respond 500 (ErrorBody "Failed to process referral"))
      /\ calls (trace (Referral.handler cfg (post dr)) w)
         = firstn 1 (referral_jobs cfg dr))
  /\ (forall w',
         bot_check_passes cfg da w' = true ->
         result (AlphaSignup.handler cfg (post da)) w'
         = Normal (respond 200
                     (SuccessBody "Alpha access request submitted!"))).
Proof.
  split; [|split].
  - clear Hreferral Halpha. unfold waitlist_jobs.
    unfold_handlers. use_facts. unfold_monad. crunch.
    rewrite Hfirst. crunch. rewrite Hfailed. crunch.
    destruct (resp_text r); split; reflexivity.
  - clear Hwaitlist Halpha. unfold referral_jobs.
    unfold_handlers. use_facts. unfold_monad. crunch.
    rewrite Hfirst. crunch. rewrite Hfailed. crunch.
    destruct (resp_text r); split; reflexivity.
  - intros w' Hbot. now apply alpha_accepts.
Qed.

Lemma C1_critical_email_failure_witness :
  result (Waitlist.handler configured (post ann_waitlist))
    (answering 0 (Responded failed_response) friendly)
  = Normal (respond 500 (ErrorBody "Failed to process signup"))
  /\ result (Referral.handler configured (post ann_referral))
       (answering 0 (Responded failed_response) friendly)
     = Normal (respond 500 (ErrorBody "Failed to process referral")).
Proof.
  pose proof (C1_critical_email_failure configured ann_waitlist ann_referral
                ann_alpha (answering 0 (Responded failed_response) friendly)
                failed_response eq_refl eq_refl eq_refl eq_refl
                eq_refl eq_refl) as H.
  exact (conj (proj1 (proj1 H)) (proj1 (proj1 (proj2 H)))).
Defined.

(** The claim C1 fails on the alpha handler: with the email service
    configured, the user confirmation (the second call) gets a non-success
    response and the handler still answers 200. *)
Lemma C1_alpha_reports_success_on_failed_user_email :
  let w := answering 1 (Responded failed_response) friendly in
  nth_error (calls (trace (AlphaSignup.handler configured (post ann_alpha)) w))
    1
  = Some (post_mail (Some "SG.key")
            (AlphaSignup.user_mail "Ann" "ann@example.com" "ann-dev"))
  /\ w 1%nat = Responded failed_response
  /\ resp_ok failed_response = false
  /\ result (AlphaSignup.handler configured (post ann_alpha)) w
     = Normal (respond 200 (SuccessBody "Alpha access request submitted!"))
  /\ result (AlphaSignup.handler configured (post ann_alpha)) w
     <> Normal (respond 500 (ErrorBody "Failed to process signup")).
Proof.
  cbv zeta. repeat split; try reflexivity.
  vm_compute. discriminate.
Qed.

(** What the handlers do swallow.  In the waitlist and the referral handler
    a non-success response to a best-effort mail is logged, and a contact
    upsert that fails in any way is caught inside its helper: the answer
    stays 200.  (In the alpha handler every dispatch failure is caught, see
    [alpha_accepts].) *)
Lemma waitlist_best_effort_swallowed
    (cfg : Config) (d : Waitlist.WaitlistData)
    (w : World) (r0 r1 : HttpResponse) :
  JS.truthy (SENDGRID_API_KEY cfg) = true ->
  waitlist_valid d = true ->
  w 0%nat = Responded r0 -> resp_ok r0 = true ->
  w 1%nat = Responded r1 -> resp_text r1 <> None ->
  result (Waitlist.handler cfg (post d)) w
  = Normal (respond 200 (SuccessBody "Successfully joined the waitlist!")).
Proof.
  intros Hkey Hv E0 Ok0 E1 T1.
  destruct (resp_text r1) as [t1|] eqn:Et1; [|congruence].
  unfold_handlers. use_facts. unfold_monad. crunch.
  rewrite E0. crunch. rewrite Ok0. crunch. rewrite E1. crunch.
  destruct (resp_ok r1); crunch; rewrite ?Et1; crunch;
    destruct (w 2%nat); reflexivity.
Qed.

Lemma referral_best_effort_swallowed
    (cfg : Config) (d : Referral.ReferralData)
    (w : World) (r0 r1 r2 : HttpResponse) :
  JS.truthy (SENDGRID_API_KEY cfg) = true ->
  referral_valid d = true ->
  w 0%nat = Responded r0 -> resp_ok r0 = true ->
  w 1%nat = Responded r1 -> resp_text r1 <> None ->
  w 2%nat = Responded r2 -> resp_text r2 <> None ->
  result (Referral.handler cfg (post d)) w
  = Normal (respond 200 (SuccessBody "Referral sent successfully!")).
Proof.
  intros Hkey Hv E0 Ok0 E1 T1 E2 T2.
  destruct (resp_text r1) as [t1|] eqn:Et1; [|congruence].
  destruct (resp_text r2) as [t2|] eqn:Et2; [|congruence].
  unfold_handlers. use_facts. unfold_monad. crunch.
  rewrite E0. crunch. rewrite Ok0. crunch. rewrite E1. crunch.
  destruct (resp_ok r1); crunch; rewrite ?Et1; crunch;
    rewrite E2; crunch;
    destruct (resp_ok r2); crunch; rewrite ?Et2; crunch;
    destruct (w 3%nat); reflexivity.
Qed.

(** C2, on the code.  A best-effort mail whose [fetch] rejects is not
    swallowed by the waitlist and referral handlers: the rejection reaches
    the handler's outer [catch] and the answer is 500.  Shown for the admin
    notice of the waitlist handler (second call), and for the referrer
    confirmation (second call) and the admin notice (third call) of the
    referral handler; the critical first mail got through each time. *)
Theorem C2_rejected_best_effort_mail_is_500 :
  run (Waitlist.handler configured (post ann_waitlist))
    (answering 1 NetworkError friendly)
  = (Normal (respond 500 (ErrorBody "Failed to process signup")),
     map Fetch (firstn 2 (waitlist_jobs configured ann_waitlist))
     ++ [Log LError "Waitlist error:"])
  /\ run (Referral.handler configured (post ann_referral))
       (answering 1 NetworkError friendly)
     = (Normal (respond 500 (ErrorBody "Failed to process referral")),
        map Fetch (firstn 2 (referral_jobs configured ann_referral))
        ++ [Log LError "Referral error:"])
  /\ run (Referral.handler configured (post ann_referral))
       (answering 2 NetworkError friendly)
     = (Normal (respond 500 (ErrorBody "Failed to process referral")),
        map Fetch (firstn 3 (referral_jobs configured ann_referral))
        ++ [Log LError "Referral error:"]).
Proof. repeat split; vm_compute; reflexivity. Qed.

(* ================================================================== *)
(** * Order of the outbound jobs *)
(* ================================================================== *)

Ltac pick_segment :=
  first [ exists 0%nat; reflexivity | exists 1%nat; reflexivity
        | exists 2%nat; reflexivity | exists 3%nat; reflexivity
        | exists 4%nat; reflexivity ].

(** C8, as the code has it.  Every handler issues its outbound jobs one
    after the other, each in its own fixed order, the contact upsert last:
    waitlist -- user mail, admin notice, contacts; referral -- friend
    invite, referrer confirmation, admin notice, contacts; alpha (after the
    bot verification, when it runs) -- admin notice, user confirmation,
    contacts.  The calls of a run are an initial segment of that list, and
    the whole list when every call succeeds. *)
Theorem C8_dispatch_order
    (cfg : Config) (dw : Waitlist.WaitlistData) (dr : Referral.ReferralData)
    (da : AlphaSignup.AlphaSignupData) (w : World)
    (Hkey : JS.truthy (SENDGRID_API_KEY cfg) = true)
    (Hwaitlist : waitlist_valid dw = true)
    (Hreferral : referral_valid dr = true)
    (Halpha : alpha_valid da = true) :
  initial_segment (calls (trace (Waitlist.handler cfg (post dw)) w))
    (waitlist_jobs cfg dw)
  /\ initial_segment (calls (trace (Referral.handler cfg (post dr)) w))
       (referral_jobs cfg dr)
  /\ (exists k,
         calls (trace (AlphaSignup.handler cfg (post da)) w)
         = alpha_verification cfg da ++ firstn k (alpha_jobs cfg da))
  /\ (all_succeed w ->
      calls (trace (Waitlist.handler cfg (post dw)) w) = waitlist_jobs cfg dw
      /\ calls (trace (Referral.handler cfg (post dr)) w)
         = referral_jobs cfg dr
      /\ calls (trace (AlphaSignup.handler cfg (post da)) w)
         = alpha_verification cfg da ++ alpha_jobs cfg da).
Proof.
  split; [|split; [|split]].
  - clear Hreferral Halpha. unfold initial_segment, waitlist_jobs.
    unfold_handlers. use_facts. unfold_monad. explore.
    all: pick_segment.
  - clear Hwaitlist Halpha.
    unfold initial_segment, referral_jobs, referral_contacts.
    unfold_handlers. use_facts. unfold_monad. explore.
    all: pick_segment.
  - now apply alpha_calls_shape.
  - intros Hw.
    destruct (Hw 0%nat) as (r0 & E0 & Ok0 & J0).
    destruct (Hw 1%nat) as (r1 & E1 & Ok1 & _).
    destruct (Hw 2%nat) as (r2 & E2 & Ok2 & _).
    destruct (Hw 3%nat) as (r3 & E3 & _).
    split; [|split].
    + clear Hreferral Halpha. unfold waitlist_jobs.
      unfold_handlers. use_facts. unfold_monad. crunch.
      rewrite E0. crunch. rewrite Ok0. crunch.
      rewrite E1. crunch. rewrite Ok1. crunch.
      rewrite E2. reflexivity.
    + clear Hwaitlist Halpha. unfold referral_jobs, referral_contacts.
      unfold_handlers. use_facts. unfold_monad. crunch.
      rewrite E0. crunch. rewrite Ok0. crunch.
      rewrite E1. crunch. rewrite Ok1. crunch.
      rewrite E2. crunch. rewrite Ok2. crunch.
      rewrite E3. reflexivity.
    + clear Hwaitlist Hreferral.
      unfold alpha_verification, alpha_jobs, bot_check_runs.
      unfold_handlers. use_facts. unfold_monad. crunch.
      destruct (JS.truthy (TURNSTILE_SECRET_KEY cfg)),
        (JS.truthy (AlphaSignup.turnstileToken da)); crunch;
        rewrite E0; crunch; rewrite ?J0; crunch;
        rewrite E1; crunch; rewrite E2; crunch; rewrite ?E3; reflexivity.
Qed.

Lemma C8_dispatch_order_witness :
  calls (trace (Waitlist.handler configured (post ann_waitlist)) friendly)
  = waitlist_jobs configured ann_waitlist
  /\ calls (trace (Referral.handler configured (post ann_referral)) friendly)
     = referral_jobs configured ann_referral
  /\ calls (trace (AlphaSignup.handler configured (post ann_alpha)) friendly)
     = alpha_verification configured ann_alpha
       ++ alpha_jobs configured ann_alpha.
Proof.
  refine (proj2 (proj2 (proj2
            (C8_dispatch_order configured ann_waitlist ann_referral ann_alpha
               friendly eq_refl eq_refl eq_refl eq_refl))) _).
  intros k. exists ok_response. repeat split.
Defined.

(** The order claimed by C8 is not the order of the alpha and the referral
    handler: the alpha handler notifies the admin first and confirms to the
    user second; the referral handler confirms to the referrer second and
    notifies the admin third. *)
Lemma C8_admin_notice_is_not_second :
  map (fun r => match req_payload r with
                | MailSend m => mail_to m
                | _ => "contacts"
                end)
    (calls (trace (AlphaSignup.handler configured (post ann_alpha)) friendly))
  = [AlphaSignup.ADMIN_EMAIL; "ann@example.com"; "contacts"]
  /\ map (fun r => match req_payload r with
                   | MailSend m => mail_to m
                   | _ => "contacts"
                   end)
       (calls (trace (Referral.handler configured (post ann_referral))
                 friendly))
     = ["bob@example.com"; "ann@example.com"; Referral.ADMIN_EMAIL;
        "contacts"]
  /\ hd_error
       (calls (trace (AlphaSignup.handler configured (post ann_alpha))
                 friendly))
     <> Some (post_mail (Some "SG.key")
                (AlphaSignup.user_mail "Ann" "ann@example.com" "ann-dev"))
  /\ nth_error
       (calls (trace (Referral.handler configured (post ann_referral))
                 friendly)) 1
     <> Some (post_mail (Some "SG.key")
                (Referral.admin_mail "ann@example.com" "Ann"
                   "bob@example.com" "Bob"
                   (Referral.generateReferralCode "ann@example.com") None)).
Proof.
  repeat split; try (vm_compute; reflexivity); vm_compute; discriminate.
Qed.

(* ================================================================== *)
(** * The GitHub-handle rule and the referral code *)
(* ================================================================== *)

(** C5, as the code has it.  The alpha validator tests the handle against
    [^[a-zA-Z0-9](?:[a-zA-Z0-9]|-(?=[a-zA-Z0-9])){0,38}$]: a hyphen must be
    followed by a letter or digit.  That is the specification's pattern
    minus the handles that end in a hyphen.  With the earlier checks passed,
    a handle failing the source pattern is answered 400 [Invalid GitHub
    username format], and a handle matching it never is. *)
Theorem C5_github_handle_rule
    (cfg : Config) (d : AlphaSignup.AlphaSignupData) (w : World)
    (Hfields : alpha_fields_ok d = true) :
  (forall s,
      Regex.test AlphaSignup.githubPattern s
      = Regex.test Spec.githubPattern s && negb (trailing_hyphen s))
  /\ (Regex.test AlphaSignup.githubPattern
        (JS.to_string (AlphaSignup.github d)) = false ->
      run (AlphaSignup.handler cfg (post d)) w
      = (Normal (respond 400 (ErrorBody "Invalid GitHub username format")),
         []))
  /\ (Regex.test AlphaSignup.githubPattern
        (JS.to_string (AlphaSignup.github d)) = true ->
      result (AlphaSignup.handler cfg (post d)) w
      <> Normal (respond 400 (ErrorBody "Invalid GitHub username format"))).
Proof.
  split; [exact code_pattern_spec_pattern|].
  split; intros Hhandle.
  - unfold_handlers. use_facts. reflexivity.
  - unfold_handlers. use_facts. unfold_monad. explore.
    all: discriminate.
Qed.

Lemma C5_github_handle_rule_witness :
  run (AlphaSignup.handler configured (post (alpha_request "bad_name!" None)))
    friendly
  = (Normal (respond 400 (ErrorBody "Invalid GitHub username format")), []).
Proof.
  exact (proj1 (proj2 (C5_github_handle_rule configured
                         (alpha_request "bad_name!" None) friendly eq_refl))
           eq_refl).
Defined.

(** The claim C5 fails on a handle ending in a hyphen: the specification's
    pattern matches [a-], the validator rejects it. *)
Lemma C5_trailing_hyphen_rejected :
  Regex.test Spec.githubPattern "a-" = true
  /\ Regex.test AlphaSignup.githubPattern "a-" = false
  /\ run (AlphaSignup.handler configured (post (alpha_request "a-" None)))
       friendly
     = (Normal (respond 400 (ErrorBody "Invalid GitHub username format")),
        []).
Proof. repeat split; vm_compute; reflexivity. Qed.

(** C6.  [generateReferralCode] is a function of the email alone (neither
    the world nor the trace enters it): equal emails give equal codes, and
    the code a referral run sends out is the code of the referrer's email
    whatever the world answers.  Every code matches [^NC-[A-Z0-9]{1,6}$]:
    it is [NC-] followed by the first six characters at most of the
    upper-cased base-36 digits of the absolute value of the hash.  The shape
    holds for every sequence of code units. *)
Theorem C6_referral_code_deterministic_and_shaped
    (codes : list Z) (email : string)
    (cfg : Config) (d : Referral.ReferralData) (w : World)
    (Hkey : JS.truthy (SENDGRID_API_KEY cfg) = true)
    (Hvalid : referral_valid d = true) :
  Regex.test Spec.referralCodePattern
    (Referral.generateReferralCode_units codes) = true
  /\ Regex.test Spec.referralCodePattern
       (Referral.generateReferralCode email) = true
  /\ (forall email',
         email = email' ->
         Referral.generateReferralCode email
         = Referral.generateReferralCode email')
  /\ Referral.generateReferralCode email
     = ("NC-"
        ++ JS.slice0 6
             (JS.toUpperCase
                (JS.toString36
                   (Z.abs (fold_left
                             (fun acc code => (JS.shl acc 5 - acc + code)%Z)
                             (map JS.charCode (list_ascii_of_string email))
                             0%Z)))))%string
  /\ hd_error (calls (trace (Referral.handler cfg (post d)) w))
     = Some (post_mail (SENDGRID_API_KEY cfg)
               (Referral.friend_mail
                  (JS.to_string (Referral.friendEmail d))
                  (JS.to_string (Referral.friendName d))
                  (JS.to_string (Referral.referrerName d))
                  (Referral.generateReferralCode
                     (JS.to_string (Referral.referrerEmail d))))).
Proof.
  split; [apply code_of_hash_shape|].
  split; [apply code_of_hash_shape|].
  split; [now intros email' <-|].
  split; [reflexivity|].
  unfold_handlers. use_facts. unfold_monad. explore.
  all: reflexivity.
Qed.

Lemma C6_referral_code_deterministic_and_shaped_witness :
  Referral.generateReferralCode "a@b.com" = "NC-YXVL1Y"
  /\ Regex.test Spec.referralCodePattern
       (Referral.generateReferralCode "a@b.com") = true.
Proof.
  split; [reflexivity|].
  exact (proj1 (proj2 (C6_referral_code_deterministic_and_shaped
                         [] "a@b.com" configured ann_referral friendly
                         eq_refl eq_refl))).
Defined.

(* ================================================================== *)
(** * Further properties of the handlers *)
(* ================================================================== *)

Lemma calls_app (tr1 tr2 : Trace) : calls (tr1 ++ tr2) = calls tr1 ++ calls tr2.
Proof.
  induction tr1 as [|[r|l s] tr1 IH]; cbn; [reflexivity| |assumption].
  now rewrite IH.
Qed.

Lemma logs_app (tr1 tr2 : Trace) : logs (tr1 ++ tr2) = logs tr1 ++ logs tr2.
Proof.
  induction tr1 as [|[r|l s] tr1 IH]; cbn; [reflexivity|assumption|].
  now rewrite IH.
Qed.

(** Expose the body of a handler run on any request. *)
Ltac unfold_runs :=
  unfold result, trace, run, request,
    Waitlist.handler, Waitlist.addToContactList,
    Referral.handler, Referral.addReferralContacts,
    AlphaSignup.handler, AlphaSignup.dispatch, AlphaSignup.verifyTurnstile,
    AlphaSignup.sendAdminNotification, AlphaSignup.sendUserConfirmation,
    AlphaSignup.addToContactList;
  cbn [method payload].

(** Hide the handle test behind a boolean. *)
Ltac hide_handle_test d :=
  generalize (Regex.test AlphaSignup.githubPattern
                (JS.to_string (AlphaSignup.github d)));
  let b := fresh "handle" in intros b.

(** X1.  Method guard of the three handlers: a request whose method is not
    POST never reaches validation.  OPTIONS is answered 200 with an empty
    body, every other method 405 [Method not allowed]; the body and the
    configuration are not looked at, nothing is logged and no call is
    made. *)
Theorem X1_method_guard
    (cfg : Config) (w : World) (m : string)
    (bw : option Waitlist.WaitlistData) (br : option Referral.ReferralData)
    (ba : option AlphaSignup.AlphaSignupData)
    (Hm : m <> "POST") :
  let answer :=
    if m =? "OPTIONS" then respond 200 NoBody
    else respond 405 (ErrorBody "Method not allowed") in
  run (Waitlist.handler cfg (request m bw)) w = (Normal answer, [])
  /\ run (Referral.handler cfg (request m br)) w = (Normal answer, [])
  /\ run (AlphaSignup.handler cfg (request m ba)) w = (Normal answer, []).
Proof.
  apply String.eqb_neq in Hm. cbv zeta. unfold_runs. rewrite Hm.
  destruct (m =? "OPTIONS"); repeat split.
Qed.

Lemma X1_method_guard_witness :
  run (Waitlist.handler configured (request "GET" (Some ann_waitlist)))
    friendly
  = (Normal (respond 405 (ErrorBody "Method not allowed")), []).
Proof.
  refine (proj1 (X1_method_guard configured friendly "GET"
                   (Some ann_waitlist) None None _)).
  discriminate.
Defined.

(** X2.  No handler lets an exception escape: for every request (any
    method, body present or missing, fields of any content) and every
    behaviour of the outside world, the run ends with a response whose
    status is 200, 400, 405 or 500 and which carries the four CORS
    headers. *)
Theorem X2_always_a_response (cfg : Config) (w : World) :
  (forall req, exists resp,
      result (Waitlist.handler cfg req) w = Normal resp
      /\ known_status (status resp) = true
      /\ headers resp = cors_headers)
  /\ (forall req, exists resp,
         result (Referral.handler cfg req) w = Normal resp
         /\ known_status (status resp) = true
         /\ headers resp = cors_headers)
  /\ (forall req, exists resp,
         result (AlphaSignup.handler cfg req) w = Normal resp
         /\ known_status (status resp) = true
         /\ headers resp = cors_headers).
Proof.
  split; [|split]; intros [m [d|]].
  all: unfold_runs.
  all: try hide_handle_test d.
  all: destruct (m =? "OPTIONS"); [eexists; repeat split|].
  all: destruct (m =? "POST"); [|eexists; repeat split].
  all: unfold_monad; explore.
  all: eexists; repeat split.
Qed.

(** X3.  A POST without a body makes the destructuring of the body throw
    inside the handler's [try]: the answer is the handler's generic 500,
    after one error log line and no outbound call -- also when the email
    service is not configured. *)
Theorem X3_missing_body (cfg : Config) (w : World) :
  run (Waitlist.handler cfg (request "POST" None)) w
  = (Normal (respond 500 (ErrorBody "Failed to process signup")),
     [Log LError "Waitlist error:"])
  /\ run (Referral.handler cfg (request "POST" None)) w
     = (Normal (respond 500 (ErrorBody "Failed to process referral")),
        [Log LError "Referral error:"])
  /\ run (AlphaSignup.handler cfg (request "POST" None)) w
     = (Normal (respond 500 (ErrorBody "Failed to process signup")),
        [Log LError "Alpha signup error:"]).
Proof. repeat split. Qed.

(** X4.  The referral validator answers before anything else happens: when
    a required field is missing or empty the answer is 400 [All required
    fields must be provided]; when the four are present and one of the two
    emails has no at-sign it is 400 [Valid email addresses required].  In
    both cases the trace is empty, whether or not the email service is
    configured. *)
Theorem X4_referral_validation
    (cfg : Config) (d : Referral.ReferralData) (w : World)
    (Hbad : referral_fields_ok d = false) :
  run (Referral.handler cfg (post d)) w
  = (Normal (respond 400
               (ErrorBody
                  (if referral_required_present d
                   then "Valid email addresses required"
                   else "All required fields must be provided"))),
     []).
Proof.
  revert Hbad. unfold referral_fields_ok, referral_required_present.
  unfold_handlers.
  destruct (JS.truthy (Referral.referrerName d)); [|reflexivity].
  destruct (JS.truthy (Referral.referrerEmail d)); [|reflexivity].
  destruct (JS.truthy (Referral.friendName d)); [|reflexivity].
  destruct (JS.truthy (Referral.friendEmail d)); [|reflexivity].
  destruct (JS.includes "@" (JS.to_string (Referral.referrerEmail d)));
    [|reflexivity].
  cbn [andb negb orb]. intros ->. reflexivity.
Qed.

Lemma X4_referral_validation_witness :
  run (Referral.handler unconfigured
         (post {| Referral.referrerName := Some "Ann";
                  Referral.referrerEmail := Some "ann.example.com";
                  Referral.counterpartyAddress := None;
                  Referral.friendName := Some "Bob";
                  Referral.friendEmail := Some "bob@example.com" |}))
    friendly
  = (Normal (respond 400 (ErrorBody "Valid email addresses required")), []).
Proof.
  exact (X4_referral_validation unconfigured
           {| Referral.referrerName := Some "Ann";
              Referral.referrerEmail := Some "ann.example.com";
              Referral.counterpartyAddress := None;
              Referral.friendName := Some "Bob";
              Referral.friendEmail := Some "bob@example.com" |}
           friendly eq_refl).
Defined.

(** X5.  The alpha validator checks in a fixed order and answers with the
    first failing rule: a missing or empty field gives 400 [All fields are
    required]; else an email without at-sign gives 400 [Valid email
    required]; else a motivation shorter than 20 characters gives 400
    [Please provide a more detailed motivation].  The trace is empty: no
    bot verification, no log line, no email. *)
Theorem X5_alpha_validation
    (cfg : Config) (d : AlphaSignup.AlphaSignupData) (w : World)
    (Hbad : alpha_fields_ok d = false) :
  run (AlphaSignup.handler cfg (post d)) w
  = (Normal (respond 400
               (ErrorBody
                  (if negb (alpha_required_present d)
                   then "All fields are required"
                   else if negb (JS.includes "@"
                                   (JS.to_string (AlphaSignup.email d)))
                   then "Valid email required"
                   else "Please provide a more detailed motivation"))),
     []).
Proof.
  revert Hbad. unfold alpha_fields_ok, alpha_required_present.
  unfold_handlers. hide_handle_test d.
  destruct (JS.truthy (AlphaSignup.name d)); [|reflexivity].
  destruct (JS.truthy (AlphaSignup.email d)); [|reflexivity].
  destruct (JS.truthy (AlphaSignup.github d)); [|reflexivity].
  destruct (JS.truthy (AlphaSignup.discovery d)); [|reflexivity].
  destruct (JS.truthy (AlphaSignup.motivation d)); [|reflexivity].
  destruct (JS.includes "@" (JS.to_string (AlphaSignup.email d)));
    [|reflexivity].
  cbn [andb negb orb]. intros H. apply negb_false_iff in H. rewrite H.
  reflexivity.
Qed.

Lemma X5_alpha_validation_witness :
  run (AlphaSignup.handler guarded
         (post {| AlphaSignup.name := Some "Ann";
                  AlphaSignup.email := Some "ann@example.com";
                  AlphaSignup.github := Some "ann-dev";
                  AlphaSignup.discovery := Some "reddit";
                  AlphaSignup.motivation := Some "too short";
                  AlphaSignup.turnstileToken := Some "tok" |}))
    friendly
  = (Normal (respond 400
               (ErrorBody "Please provide a more detailed motivation")), []).
Proof.
  exact (X5_alpha_validation guarded
           {| AlphaSignup.name := Some "Ann";
              AlphaSignup.email := Some "ann@example.com";
              AlphaSignup.github := Some "ann-dev";
              AlphaSignup.discovery := Some "reddit";
              AlphaSignup.motivation := Some "too short";
              AlphaSignup.turnstileToken := Some "tok" |}
           friendly eq_refl).
Defined.

(* ================================================================== *)
(** * Further properties of the bot verifiers *)
(* ================================================================== *)

(** X6.  Fail-open without configuration: when the secret is absent or
    empty, [verifyTurnstileToken] returns [true] for every token, the empty
    and the absent one included, after one warning and without any outbound
    call. *)
Theorem X6_verify_open_without_secret
    (token secretKey remoteip : JS.value) (w : World) (tr : Trace)
    (Hsecret : JS.truthy secretKey = false) :
  Turnstile.verifyTurnstileToken token secretKey remoteip w tr
  = (Normal true,
     tr ++ [Log LWarn
              "Turnstile secret key not configured - skipping verification"])
  /\ calls (snd (Turnstile.verifyTurnstileToken token secretKey remoteip w tr))
     = calls tr.
Proof.
  unfold Turnstile.verifyTurnstileToken. rewrite Hsecret. cbn.
  split; [reflexivity|]. rewrite calls_app. cbn. apply app_nil_r.
Qed.

Lemma X6_verify_open_without_secret_witness :
  Turnstile.verifyTurnstileToken None (Some EmptyString) None
    (fun _ => NetworkError) []
  = (Normal true,
     [Log LWarn
        "Turnstile secret key not configured - skipping verification"]).
Proof.
  exact (proj1 (X6_verify_open_without_secret None (Some EmptyString) None
                  (fun _ => NetworkError) [] eq_refl)).
Defined.

(** X7.  With a secret and a non-empty token, [verifyTurnstileToken] makes
    exactly one call: a form POST to the verification endpoint carrying the
    secret, the token and, only when one is given, the client address.  It
    never throws: its result is the [success] member of the answer, and
    [false] when the call is rejected or the answer cannot be parsed
    (fail-closed on error). *)
Theorem X7_verify_single_call
    (token secretKey remoteip : JS.value) (w : World) (tr : Trace)
    (Hsecret : JS.truthy secretKey = true)
    (Htoken : JS.truthy token = true) :
  fst (Turnstile.verifyTurnstileToken token secretKey remoteip w tr)
  = Normal (verdict (w (List.length (calls tr))))
  /\ calls (snd (Turnstile.verifyTurnstileToken token secretKey remoteip w tr))
     = calls tr
       ++ [ {| req_url := siteverify_url;
               req_method := "POST";
               req_bearer := None;
               req_payload :=
                 Form ([("secret", JS.to_string secretKey);
                        ("response", JS.to_string token)]
                       ++ (if JS.truthy remoteip
                           then [("remoteip", JS.to_string remoteip)]
                           else [])) |} ].
Proof.
  unfold Turnstile.verifyTurnstileToken, verdict. rewrite Hsecret, Htoken.
  cbn [negb]. unfold_monad; unfold post_form.
  destruct (w (List.length (calls tr))) as [|r]; cbn.
  - rewrite !calls_app. cbn. rewrite app_nil_r. split; reflexivity.
  - destruct (resp_json_success r) as [[|]|]; cbn;
      rewrite ?calls_app; cbn; rewrite ?app_nil_r; split; reflexivity.
Qed.

Lemma X7_verify_single_call_witness :
  fst (Turnstile.verifyTurnstileToken (Some "tok") (Some "0x4AAA-secret")
         (Some "203.0.113.7") (fun _ => NetworkError) [])
  = Normal false.
Proof.
  exact (proj1 (X7_verify_single_call (Some "tok") (Some "0x4AAA-secret")
                  (Some "203.0.113.7") (fun _ => NetworkError) []
                  eq_refl eq_refl)).
Defined.

(** X8.  The alpha handler's private [verifyTurnstile] and the shared
    [verifyTurnstileToken] (called without a client address) agree on every
    non-empty token: same result and same outbound calls, whatever the
    configuration and the world.  They differ only in what they log. *)
Theorem X8_verifiers_agree
    (cfg : Config) (token : string) (w : World) (tr : Trace)
    (Htoken : token <> EmptyString) :
  fst (AlphaSignup.verifyTurnstile cfg token w tr)
  = fst (Turnstile.verifyTurnstileToken (Some token)
           (TURNSTILE_SECRET_KEY cfg) None w tr)
  /\ calls (snd (AlphaSignup.verifyTurnstile cfg token w tr))
     = calls (snd (Turnstile.verifyTurnstileToken (Some token)
                     (TURNSTILE_SECRET_KEY cfg) None w tr)).
Proof.
  apply String.eqb_neq in Htoken.
  unfold AlphaSignup.verifyTurnstile, Turnstile.verifyTurnstileToken.
  cbn [JS.truthy JS.to_string]. rewrite Htoken.
  destruct (JS.truthy (TURNSTILE_SECRET_KEY cfg)); cbn [negb].
  - unfold_monad; unfold post_form. cbn [app].
    destruct (w (List.length (calls tr))) as [|r]; cbn.
    + rewrite !calls_app. split; reflexivity.
    + destruct (resp_json_success r) as [[|]|]; cbn;
        rewrite ?calls_app; cbn; rewrite ?app_nil_r; split; reflexivity.
  - cbn. rewrite calls_app. cbn. rewrite app_nil_r. split; reflexivity.
Qed.

Lemma X8_verifiers_agree_witness :
  fst (AlphaSignup.verifyTurnstile guarded "tok" friendly [])
  = fst (Turnstile.verifyTurnstileToken (Some "tok")
           (Some "0x4AAA-secret") None friendly []).
Proof.
  refine (proj1 (X8_verifiers_agree guarded "tok" friendly [] _)).
  discriminate.
Defined.

(** X9.  Bot check of the alpha handler, fail-closed: for a valid
    submission with secret and token present, when the verification service
    refuses (falsy [success]), cannot be reached, or answers something
    unreadable, the answer is 400 [Bot verification failed. Please try
    again.]; the verification is the only outbound call (secret and token
    in a form, no client address), and the signup is neither logged nor
    mailed. *)
Theorem X9_bot_check_refusal
    (cfg : Config) (d : AlphaSignup.AlphaSignupData) (w : World)
    (Hvalid : alpha_valid d = true)
    (Hruns : bot_check_runs cfg d = true)
    (Hrefused : verdict (w 0%nat) = false) :
  result (AlphaSignup.handler cfg (post d)) w
  = Normal (respond 400
              (ErrorBody "Bot verification failed. Please try again."))
  /\ calls (trace (AlphaSignup.handler cfg (post d)) w)
     = [ {| req_url := siteverify_url;
            req_method := "POST";
            req_bearer := None;
            req_payload :=
              Form [("secret", JS.to_string (TURNSTILE_SECRET_KEY cfg));
                    ("response",
                     JS.to_string (AlphaSignup.turnstileToken d))] |} ]
  /\ ~ In (LInfo, "🎉 NEW ALPHA SIGNUP:")
       (logs (trace (AlphaSignup.handler cfg (post d)) w)).
Proof.
  unfold bot_check_runs in Hruns. apply andb_true_iff in Hruns as [Hs Ht].
  revert Hrefused. unfold verdict.
  unfold_handlers. use_facts. unfold_monad; unfold post_form. crunch.
  destruct (w 0%nat) as [|r]; crunch.
  - intros _. repeat split. intros [H|[]]. discriminate H.
  - destruct (resp_json_success r) as [[|]|]; crunch; intros H;
      try discriminate H; repeat split.
    + intros [].
    + intros [E|[]]. discriminate E.
Qed.

Lemma X9_bot_check_refusal_witness :
  result (AlphaSignup.handler guarded (post ann_alpha_with_token))
    (answering 0 (Responded failed_response) friendly)
  = Normal (respond 400
              (ErrorBody "Bot verification failed. Please try again.")).
Proof.
  exact (proj1 (X9_bot_check_refusal guarded ann_alpha_with_token
                  (answering 0 (Responded failed_response) friendly)
                  eq_refl eq_refl eq_refl)).
Defined.


(* ================================================================== *)
(** * Further properties of the dispatch *)
(* ================================================================== *)

Lemma segment_forall {A} (P : A -> Prop) (l jobs : list A) :
  initial_segment l jobs -> Forall P jobs -> Forall P l.
Proof.
  intros [k ->] H. rewrite Forall_forall in *. intros x Hx.
  apply H. now apply in_initial_segment with k.
Qed.

Lemma segment_length {A} (l jobs : list A) :
  initial_segment l jobs -> (List.length l <= List.length jobs)%nat.
Proof. intros [k ->]. rewrite length_firstn. lia. Qed.

(** The calls of a waitlist run on any body. *)
Lemma waitlist_calls_segment cfg d w :
  initial_segment (calls (trace (Waitlist.handler cfg (post d)) w))
    (waitlist_jobs cfg d).
Proof.
  unfold initial_segment, waitlist_jobs.
  unfold_handlers. unfold_monad. explore.
  all: pick_segment.
Qed.

(** The calls of a referral run on any body. *)
Lemma referral_calls_segment cfg d w :
  initial_segment (calls (trace (Referral.handler cfg (post d)) w))
    (referral_jobs cfg d).
Proof.
  unfold initial_segment, referral_jobs, referral_contacts.
  unfold_handlers. unfold_monad. explore.
  all: pick_segment.
Qed.

(** The calls of an alpha run on any body. *)
Lemma alpha_calls_segment cfg d w :
  exists k,
    calls (trace (AlphaSignup.handler cfg (post d)) w)
    = (if alpha_valid d then alpha_verification cfg d else [])
      ++ firstn k (alpha_jobs cfg d).
Proof.
  destruct (alpha_valid d) eqn:Hv.
  - now apply alpha_calls_shape.
  - exists 0%nat. now rewrite alpha_invalid_no_calls.
Qed.

(** A run on a request that is not a POST with a body makes no call. *)
Lemma no_calls_unless_post_with_body cfg w m :
  (forall b, (m =? "POST") = false \/ b = None ->
     calls (trace (Waitlist.handler cfg (request m b)) w) = [])
  /\ (forall b, (m =? "POST") = false \/ b = None ->
        calls (trace (Referral.handler cfg (request m b)) w) = [])
  /\ (forall b, (m =? "POST") = false \/ b = None ->
        calls (trace (AlphaSignup.handler cfg (request m b)) w) = []).
Proof.
  repeat split; intros b [Hm| ->]; unfold_runs; rewrite ?Hm;
    destruct (m =? "OPTIONS"); try reflexivity;
    destruct (m =? "POST"); reflexivity.
Qed.

(** X11.  No call outside the job list, for every body and configuration:
    whatever a POST carries (valid or not) and whatever the world answers,
    the outbound calls of a run are an initial segment of the handler's job
    list, in order and without repetition -- so at most three calls for the
    waitlist handler and at most four for the referral and the alpha
    handler (bot verification included), and no retry. *)
Theorem X11_calls_within_jobs
    (cfg : Config) (dw : Waitlist.WaitlistData) (dr : Referral.ReferralData)
    (da : AlphaSignup.AlphaSignupData) (w : World) :
  (initial_segment (calls (trace (Waitlist.handler cfg (post dw)) w))
     (waitlist_jobs cfg dw)
   /\ (List.length (calls (trace (Waitlist.handler cfg (post dw)) w)) <= 3)
      %nat)
  /\ (initial_segment (calls (trace (Referral.handler cfg (post dr)) w))
        (referral_jobs cfg dr)
      /\ (List.length (calls (trace (Referral.handler cfg (post dr)) w)) <= 4)
         %nat)
  /\ (initial_segment (calls (trace (AlphaSignup.handler cfg (post da)) w))
        (alpha_verification cfg da ++ alpha_jobs cfg da)
      /\ (List.length (calls (trace (AlphaSignup.handler cfg (post da)) w))
          <= 4)%nat).
Proof.
  assert (Ha : initial_segment
                 (calls (trace (AlphaSignup.handler cfg (post da)) w))
                 (alpha_verification cfg da ++ alpha_jobs cfg da)).
  { destruct (alpha_valid da) eqn:Hv.
    - destruct (alpha_calls_shape cfg da w Hv) as [k Hk].
      exists (List.length (alpha_verification cfg da) + k)%nat.
      rewrite firstn_app_2. exact Hk.
    - exists 0%nat. exact (alpha_invalid_no_calls cfg da w Hv). }
  assert (Lw : List.length (waitlist_jobs cfg dw) = 3%nat) by reflexivity.
  assert (Lr : List.length (referral_jobs cfg dr) = 4%nat) by reflexivity.
  assert (La : (List.length (alpha_verification cfg da ++ alpha_jobs cfg da)
                <= 4)%nat).
  { rewrite length_app. change (List.length (alpha_jobs cfg da)) with 3%nat.
    unfold alpha_verification.
    destruct (bot_check_runs cfg da); cbn [List.length]; lia. }
  pose proof (waitlist_calls_segment cfg dw w) as Sw.
  pose proof (referral_calls_segment cfg dr w) as Sr.
  pose proof (segment_length _ _ Sw) as Bw.
  pose proof (segment_length _ _ Sr) as Br.
  pose proof (segment_length _ _ Ha) as Ba.
  rewrite Lw in Bw. rewrite Lr in Br.
  split; [split; [exact Sw | exact Bw]|].
  split; [split; [exact Sr | exact Br]|].
  split; [exact Ha|].
  exact (Nat.le_trans _ _ _ Ba La).
Qed.

(** X12.  Where the handlers call: for every request (any method, body
    present or not), every call of the waitlist and of the referral handler
    goes to one of the two email-provider endpoints with the configured key
    as bearer token -- neither of them ever contacts the bot-verification
    service -- and every call of the alpha handler is such a call or a
    bearer-less call to the verification endpoint. *)
Theorem X12_call_targets (cfg : Config) (w : World) :
  (forall req,
      Forall (sendgrid_call cfg) (calls (trace (Waitlist.handler cfg req) w)))
  /\ (forall req,
         Forall (sendgrid_call cfg)
           (calls (trace (Referral.handler cfg req) w)))
  /\ (forall req,
         Forall (fun r => sendgrid_call cfg r \/ verification_call r)
           (calls (trace (AlphaSignup.handler cfg req) w))).
Proof.
  assert (Hjob : forall r,
             (req_url r = mail_send_url \/ req_url r = contacts_url) ->
             req_bearer r = Some (JS.to_string (SENDGRID_API_KEY cfg)) ->
             sendgrid_call cfg r) by (intros r H1 H2; now split).
  pose proof (no_calls_unless_post_with_body cfg w) as Hnone.
  repeat split; intros [m b].
  all: change {| method := m; payload := b |} with (request m b).
  all: destruct (m =? "POST") eqn:Hm;
    [apply String.eqb_eq in Hm; subst m; destruct b as [d|]|].
  - apply (segment_forall _ _ _ (waitlist_calls_segment cfg d w)).
    unfold waitlist_jobs.
    repeat (apply Forall_cons;
            [apply Hjob; [first [now left | now right] | reflexivity]|]).
    apply Forall_nil.
  - rewrite (proj1 (Hnone "POST")); [constructor|now right].
  - rewrite (proj1 (Hnone m)); [constructor|now left].
  - apply (segment_forall _ _ _ (referral_calls_segment cfg d w)).
    unfold referral_jobs.
    repeat (apply Forall_cons;
            [apply Hjob; [first [now left | now right] | reflexivity]|]).
    apply Forall_nil.
  - rewrite (proj1 (proj2 (Hnone "POST"))); [constructor|now right].
  - rewrite (proj1 (proj2 (Hnone m))); [constructor|now left].
  - change (request "POST" (Some d)) with (post d).
    destruct (alpha_calls_segment cfg d w) as [k ->].
    apply Forall_app. split.
    + destruct (alpha_valid d); [|constructor].
      unfold alpha_verification.
      destruct (bot_check_runs cfg d); [|constructor].
      apply Forall_cons; [|apply Forall_nil].
      right. split; reflexivity.
    + apply (segment_forall _ (firstn k (alpha_jobs cfg d))
               (alpha_jobs cfg d)); [now exists k|].
      unfold alpha_jobs.
      repeat (apply Forall_cons;
              [left; apply Hjob;
               [first [now left | now right] | reflexivity]|]).
      apply Forall_nil.
  - rewrite (proj2 (proj2 (Hnone "POST"))); [constructor|now right].
  - rewrite (proj2 (proj2 (Hnone m))); [constructor|now left].
Qed.

(** X13.  Foundation 100 signups: when the type is exactly
    [foundation100], the user mail carries the Foundation 100 subject and
    template (name defaulting to [there]) and the admin notice the
    Foundation 100 subject; the contact record keeps the type, and the
    answer, when every call succeeds, is the same 200 [Successfully joined
    the waitlist!] as for a plain signup. *)
Theorem X13_foundation100_signup
    (cfg : Config) (d : Waitlist.WaitlistData) (w : World)
    (Hvalid : waitlist_valid d = true)
    (Hkey : JS.truthy (SENDGRID_API_KEY cfg) = true)
    (Htype : Waitlist.type d = Some "foundation100")
    (Hworld : all_succeed w) :
  result (Waitlist.handler cfg (post d)) w
  = Normal (respond 200 (SuccessBody "Successfully joined the waitlist!"))
  /\ calls (trace (Waitlist.handler cfg (post d)) w)
     = [ post_mail (SENDGRID_API_KEY cfg)
           {| mail_to := JS.to_string (Waitlist.email d);
              mail_from := "noreply@neuralcommander.ai";
              mail_from_name := "Neural Commander";
              mail_subject := "🎉 Welcome to Foundation 100!";
              mail_content :=
                getFoundation100Email (JS.or_else (Waitlist.name d) "there")
           |};
         post_mail (SENDGRID_API_KEY cfg)
           {| mail_to := "bradley@neuralcommander.ai";
              mail_from := "noreply@neuralcommander.ai";
              mail_from_name := "NC Waitlist";
              mail_subject :=
                "💰 Foundation 100 Signup: "
                ++ JS.to_string (Waitlist.email d);
              mail_content :=
                WaitlistAdminHtml (JS.to_string (Waitlist.email d))
                  (JS.or_else (Waitlist.name d) "Not provided")
                  (Some "foundation100") |};
         put_contacts (SENDGRID_API_KEY cfg)
           [ {| contact_email := JS.to_string (Waitlist.email d);
                contact_first_name :=
                  JS.or_else (Waitlist.name d) EmptyString;
                contact_custom_fields :=
                  [("signup_type", Some "foundation100")] |} ] ].
Proof.
  destruct (Hworld 0%nat) as (r0 & E0 & Ok0 & _).
  destruct (Hworld 1%nat) as (r1 & E1 & Ok1 & _).
  destruct (Hworld 2%nat) as (r2 & E2 & _).
  unfold_handlers.
  unfold Waitlist.user_mail, Waitlist.admin_mail, Waitlist.FROM_EMAIL,
    Waitlist.ADMIN_EMAIL.
  rewrite Htype. cbn [Waitlist.is_foundation100].
  change ("foundation100" =? "foundation100") with true. cbv iota.
  clear Htype. use_facts. unfold_monad. crunch.
  rewrite E0. crunch. rewrite Ok0. crunch.
  rewrite E1. crunch. rewrite Ok1. crunch.
  rewrite E2. crunch. split; reflexivity.
Qed.

Lemma X13_foundation100_signup_witness :
  result (Waitlist.handler configured (post ann_foundation)) friendly
  = Normal (respond 200 (SuccessBody "Successfully joined the waitlist!")).
Proof.
  refine (proj1 (X13_foundation100_signup configured ann_foundation friendly
                   eq_refl eq_refl eq_refl _)).
  intros k. exists ok_response. repeat split.
Defined.

(** X14.  The critical mail can also fail by rejection: when the first
    [fetch] of the waitlist or of the referral handler rejects (the email
    API cannot be reached), the handler stops there -- one call, one error
    log line -- and answers its generic 500. *)
Theorem X14_critical_mail_rejected
    (cfg : Config) (dw : Waitlist.WaitlistData) (dr : Referral.ReferralData)
    (w : World)
    (Hkey : JS.truthy (SENDGRID_API_KEY cfg) = true)
    (Hwaitlist : waitlist_valid dw = true)
    (Hreferral : referral_valid dr = true)
    (Hrejected : w 0%nat = NetworkError) :
  run (Waitlist.handler cfg (post dw)) w
  = (Normal (respond 500 (ErrorBody "Failed to process signup")),
     map Fetch (firstn 1 (waitlist_jobs cfg dw))
     ++ [Log LError "Waitlist error:"])
  /\ run (Referral.handler cfg (post dr)) w
     = (Normal (respond 500 (ErrorBody "Failed to process referral")),
        map Fetch (firstn 1 (referral_jobs cfg dr))
        ++ [Log LError "Referral error:"]).
Proof.
  split.
  - clear Hreferral. unfold waitlist_jobs.
    unfold_handlers. use_facts. unfold_monad. crunch.
    rewrite Hrejected. reflexivity.
  - clear Hwaitlist. unfold referral_jobs.
    unfold_handlers. use_facts. unfold_monad. crunch.
    rewrite Hrejected. reflexivity.
Qed.

Lemma X14_critical_mail_rejected_witness :
  fst (run (Waitlist.handler configured (post ann_waitlist))
         (fun _ => NetworkError))
  = Normal (respond 500 (ErrorBody "Failed to process signup")).
Proof.
  exact (f_equal fst
           (proj1 (X14_critical_mail_rejected configured ann_waitlist
                     ann_referral (fun _ => NetworkError)
                     eq_refl eq_refl eq_refl eq_refl))).
Defined.





(* ================================================================== *)
(** * Further properties of the referral code and the handle rule *)
(* ================================================================== *)

Section HashFacts.

Local Open Scope Z_scope.

Lemma toInt32_congruent (x : Z) : exists q, JS.toInt32 x = x + q * 2 ^ 32.
Proof.
  unfold JS.toInt32. pose proof (Z.div_mod x (2 ^ 32) ltac:(lia)) as H.
  destruct (x mod 2 ^ 32 <? 2 ^ 31).
  - exists (- (x / 2 ^ 32)). lia.
  - exists (- (x / 2 ^ 32) - 1). lia.
Qed.

Lemma hash_step_congruent (a b code : Z) :
  (exists q, a = b + q * 2 ^ 32) ->
  exists q, Referral.hash_step a code = 31 * b + code + q * 2 ^ 32.
Proof.
  intros [q ->]. unfold Referral.hash_step, JS.shl.
  change (Z.land 5 31) with 5. rewrite Z.shiftl_mul_pow2 by lia.
  destruct (toInt32_congruent (b + q * 2 ^ 32)) as [q1 E1].
  destruct (toInt32_congruent (JS.toInt32 (b + q * 2 ^ 32) * 2 ^ 5))
    as [q2 E2].
  rewrite E2, E1. exists (31 * q + 32 * q1 + q2). lia.
Qed.

Lemma hash_fold_congruent (codes : list Z) :
  forall a b,
    (exists q, a = b + q * 2 ^ 32) ->
    exists q,
      fold_left Referral.hash_step codes a
      = fold_left (fun acc code => 31 * acc + code) codes b + q * 2 ^ 32.
Proof.
  induction codes as [|c codes IH]; intros a b H; cbn [fold_left].
  - exact H.
  - apply IH. now apply hash_step_congruent.
Qed.

(** X17.  The referral hash is the factor-31 string hash up to 32-bit
    wrap-around: whatever the email, the accumulator that [(acc << 5) - acc
    + code] builds is congruent modulo 2^32 to the polynomial hash with
    factor 31 of the code units (the shift is the only 32-bit step, so the
    two need not be equal). *)
Theorem X17_hash_congruent_to_poly31 (codes : list Z) :
  Referral.hash_units codes mod 2 ^ 32 = poly31 codes mod 2 ^ 32.
Proof.
  unfold Referral.hash_units, poly31.
  destruct (hash_fold_congruent codes 0 0) as [q E]; [now exists 0|].
  rewrite E. apply Z_mod_plus_full.
Qed.

Lemma firstn_forall {A} (P : A -> Prop) (k : nat) :
  forall l, Forall P l -> Forall P (firstn k l).
Proof.
  induction k as [|k IH]; intros [|x l] H; cbn; try constructor.
  - now inversion H.
  - apply IH. now inversion H.
Qed.

(** X18.  The hash stays within exact number range: for an email of fewer
    than 2^21 code units, the accumulator after every prefix of the email
    -- and so the final hash -- is below 2^53 in absolute value, the range
    in which the numbers the reducer computes with are exact integers. *)
Theorem X18_hash_within_exact_range (codes : list Z) (k : nat)
    (Hunits : Forall (fun c => 0 <= c < 65536) codes)
    (Hlength : Z.of_nat (List.length codes) < 2 ^ 21) :
  Z.abs (Referral.hash_units (firstn k codes)) < 2 ^ 53
  /\ Z.abs (Referral.hash_units codes) < 2 ^ 53.
Proof.
  assert (G : forall l,
             Forall (fun c => 0 <= c < 65536) l ->
             Z.of_nat (List.length l) < 2 ^ 21 ->
             Z.abs (Referral.hash_units l) < 2 ^ 53).
  { intros l Hl Hlen. pose proof (hash_units_bound l Hl). nia. }
  split; [|now apply G].
  apply G; [now apply firstn_forall|].
  rewrite length_firstn. lia.
Qed.

Lemma X18_hash_within_exact_range_witness :
  Z.abs (Referral.hash_units [97; 64; 98]) < 2 ^ 53.
Proof.
  refine (proj2 (X18_hash_within_exact_range [97; 64; 98] 1 _ _)).
  - repeat constructor; lia.
  - cbn. lia.
Defined.

Lemma digits36_short (fuel : nat) :
  forall (k : nat) n acc,
    0 <= n < 36 ^ Z.of_nat k ->
    (String.length (JS.digits36 fuel n acc) <= k + String.length acc)%nat.
Proof.
  induction fuel as [|fuel IH]; intros k n acc Hn; cbn [JS.digits36].
  - lia.
  - destruct (n <=? 0) eqn:En; [lia|]. apply Z.leb_gt in En.
    destruct k as [|k]; [cbn in Hn; lia|].
    rewrite Nat2Z.inj_succ, Z.pow_succ_r in Hn by lia.
    etransitivity; [apply (IH k)|cbn [String.length]; lia].
    split; [apply Z.div_pos; lia|apply Z.div_lt_upper_bound; lia].
Qed.

Lemma substring_whole (s : string) :
  forall n, (String.length s <= n)%nat -> String.substring 0 n s = s.
Proof.
  induction s as [|c s IH]; intros [|n] H; cbn in *; try reflexivity;
    try lia.
  f_equal. apply IH. lia.
Qed.

Lemma lower_of_upper (c : ascii) :
  lower_alnum c = true -> JS.lower_char (JS.upper_char c) = c.
Proof.
  destruct c as [[] [] [] [] [] [] [] []]; vm_compute; congruence.
Qed.

Lemma toLowerCase_toUpperCase (s : string) :
  string_forall lower_alnum s = true ->
  JS.toLowerCase (JS.toUpperCase s) = s.
Proof.
  induction s as [|c s IH]; cbn [string_forall JS.toUpperCase JS.toLowerCase];
    [reflexivity|].
  intros H. apply andb_true_iff in H as [Hc Hs].
  now rewrite (lower_of_upper _ Hc), IH.
Qed.

(** X19.  Short hashes are not truncated: when the absolute value of the
    hash is below 36^6, the six-character cut keeps every digit, and
    reading the code back (dropping [NC-], base 36) gives that absolute
    value -- so two such hashes share a code only if they are equal up to
    sign. *)
Theorem X19_code_reads_back (h1 h2 : Z)
    (Hsmall1 : Z.abs h1 < 36 ^ 6)
    (Hsmall2 : Z.abs h2 < 36 ^ 6) :
  decode_code (Referral.code_of_hash h1) = Z.abs h1
  /\ (Referral.code_of_hash h1 = Referral.code_of_hash h2 ->
      Z.abs h1 = Z.abs h2).
Proof.
  assert (G : forall h, Z.abs h < 36 ^ 6 ->
                        decode_code (Referral.code_of_hash h) = Z.abs h).
  { intros h Hh. unfold decode_code, Referral.code_of_hash, JS.slice0.
    set (s := JS.toString36 (Z.abs h)).
    assert (Hlen : (String.length s <= 6)%nat).
    { subst s. unfold JS.toString36.
      destruct (Z.abs h <=? 0); [cbn; lia|].
      apply (digits36_short _ 6 (Z.abs h) EmptyString). lia. }
    rewrite (substring_whole (JS.toUpperCase s))
      by now rewrite toUpperCase_length.
    cbn [String.append String.length Nat.sub String.substring].
    rewrite substring_whole by lia.
    rewrite toLowerCase_toUpperCase by apply toString36_lower.
    apply toString36_value. lia. }
  split; [now apply G|].
  intros E. rewrite <- (G h1), <- (G h2) by assumption. now rewrite E.
Qed.

Lemma X19_code_reads_back_witness :
  decode_code (Referral.code_of_hash (-1296)) = 1296.
Proof.
  exact (proj1 (X19_code_reads_back (-1296) 5 eq_refl eq_refl)).
Defined.

End HashFacts.

Lemma rounds_code_words (s : list ascii) :
  forall n,
    rounds code_round n s
    = (List.length s <=? n)%nat
      && forallb hyphen_or_alnum s
      && negb (ends_with Regex.hyphen s)
      && no_double_hyphen s.
Proof.
  induction s as [|c rest IH]; intros [|n]; try reflexivity.
  change (rounds code_round (S n) (c :: rest))
    with (code_round c rest && rounds code_round n rest).
  rewrite IH. clear IH.
  change (List.length (c :: rest) <=? S n)%nat
    with (List.length rest <=? n)%nat.
  change (forallb hyphen_or_alnum (c :: rest))
    with (hyphen_or_alnum c && forallb hyphen_or_alnum rest).
  change (no_double_hyphen (c :: rest))
    with (negb (Regex.hyphen c && followed_by Regex.hyphen rest)
          && no_double_hyphen rest).
  unfold code_round.
  destruct rest as [|c' rest'].
  - cbn -[Regex.alnum Regex.hyphen]. unfold hyphen_or_alnum.
    destruct (Regex.alnum c) eqn:Ea; [rewrite (alnum_not_hyphen _ Ea)|];
      destruct (Regex.hyphen c); reflexivity.
  - change (ends_with Regex.hyphen (c :: c' :: rest'))
      with (ends_with Regex.hyphen (c' :: rest')).
    change (forallb hyphen_or_alnum (c' :: rest'))
      with (hyphen_or_alnum c' && forallb hyphen_or_alnum rest').
    cbn [followed_by].
    generalize (List.length (c' :: rest') <=? n)%nat as fits.
    generalize (forallb hyphen_or_alnum rest') as tail_ok.
    generalize (ends_with Regex.hyphen (c' :: rest')) as ends.
    generalize (no_double_hyphen (c' :: rest')) as no_pair.
    intros no_pair ends tail_ok fits. unfold hyphen_or_alnum.
    destruct (Regex.alnum c) eqn:Ea; [rewrite (alnum_not_hyphen _ Ea)|];
      (destruct (Regex.alnum c') eqn:Ea';
       [rewrite (alnum_not_hyphen _ Ea')|]);
      destruct (Regex.hyphen c), (Regex.hyphen c'),
        fits, tail_ok, ends, no_pair; reflexivity.
Qed.

(** X20.  The handle test in words: the alpha validator accepts a GitHub
    handle exactly when it has one to 39 characters, all letters, digits or
    hyphens, does not start or end with a hyphen and has no two hyphens in
    a row. *)
Theorem X20_handle_rule_in_words (s : string) :
  Regex.test AlphaSignup.githubPattern s = handle_ok s.
Proof.
  rewrite code_pattern_closed. unfold handle_ok.
  destruct (list_ascii_of_string s) as [|c rest]; [reflexivity|].
  rewrite rounds_code_words.
  change (1 <=? List.length (c :: rest))%nat with true.
  change (List.length (c :: rest) <=? 39)%nat
    with (List.length rest <=? 38)%nat.
  change (forallb hyphen_or_alnum (c :: rest))
    with (hyphen_or_alnum c && forallb hyphen_or_alnum rest).
  change (no_double_hyphen (c :: rest))
    with (negb (Regex.hyphen c && followed_by Regex.hyphen rest)
          && no_double_hyphen rest).
  cbn [followed_by]. unfold hyphen_or_alnum.
  generalize (List.length rest <=? 38)%nat as fits.
  generalize (forallb (fun c0 => Regex.alnum c0 || Regex.hyphen c0) rest)
    as tail_ok.
  generalize (no_double_hyphen rest) as no_pair.
  intros no_pair tail_ok fits.
  destruct rest as [|c' rest'].
  - cbn [ends_with followed_by].
    destruct (Regex.alnum c) eqn:Ea; [rewrite (alnum_not_hyphen _ Ea)|];
      destruct (Regex.hyphen c), fits, tail_ok, no_pair; reflexivity.
  - change (ends_with Regex.hyphen (c :: c' :: rest'))
      with (ends_with Regex.hyphen (c' :: rest')).
    generalize (ends_with Regex.hyphen (c' :: rest')) as ends; intros ends.
    cbn [followed_by].
    destruct (Regex.alnum c) eqn:Ea; [rewrite (alnum_not_hyphen _ Ea)|];
      destruct (Regex.hyphen c), (Regex.hyphen c'),
        fits, tail_ok, no_pair, ends; reflexivity.
Qed.

(* ================================================================== *)
(** * What a success answer guarantees *)
(* ================================================================== *)

(** X21.  A 200 from the waitlist handler is earned: if a POST is answered
    200 then its email passed validation, the email service is configured,
    the user mail was answered with a success status, and the admin notice
    was attempted after it. *)
Theorem X21_waitlist_success_is_earned
    (cfg : Config) (d : Waitlist.WaitlistData) (w : World)
    (Hok : result (Waitlist.handler cfg (post d)) w
           = Normal (respond 200
                       (SuccessBody "Successfully joined the waitlist!"))) :
  waitlist_valid d = true
  /\ JS.truthy (SENDGRID_API_KEY cfg) = true
  /\ (exists r, w 0%nat = Responded r /\ resp_ok r = true)
  /\ firstn 2 (calls (trace (Waitlist.handler cfg (post d)) w))
     = firstn 2 (waitlist_jobs cfg d).
Proof.
  revert Hok. unfold waitlist_valid, waitlist_jobs. unfold_handlers.
  destruct (JS.truthy (Waitlist.email d)); [|discriminate].
  destruct (JS.includes "@" (JS.to_string (Waitlist.email d)));
    [|discriminate].
  cbn [negb orb andb]. unfold_monad. explore.
  all: intros Hok; try discriminate Hok.
  all: repeat split; try reflexivity.
  all: eexists; split; [reflexivity|now apply negb_false_iff].
Qed.

Lemma X21_waitlist_success_is_earned_witness :
  JS.truthy (SENDGRID_API_KEY configured) = true.
Proof.
  exact (proj1 (proj2 (X21_waitlist_success_is_earned configured
                         ann_waitlist friendly eq_refl))).
Defined.

(** X22.  A 200 from the referral handler is earned: if a POST is answered
    200 then the submission passed validation and is no self-referral, the
    email service is configured, the friend's invite was answered with a
    success status, and the referrer confirmation and the admin notice
    were both attempted after it. *)
Theorem X22_referral_success_is_earned
    (cfg : Config) (d : Referral.ReferralData) (w : World)
    (Hok : result (Referral.handler cfg (post d)) w
           = Normal (respond 200 (SuccessBody "Referral sent successfully!")))
  : referral_valid d = true
  /\ JS.truthy (SENDGRID_API_KEY cfg) = true
  /\ (exists r, w 0%nat = Responded r /\ resp_ok r = true)
  /\ firstn 3 (calls (trace (Referral.handler cfg (post d)) w))
     = firstn 3 (referral_jobs cfg d).
Proof.
  revert Hok.
  unfold referral_valid, referral_fields_ok, self_referral, referral_jobs.
  unfold_handlers.
  destruct (JS.truthy (Referral.referrerName d)); [|discriminate].
  destruct (JS.truthy (Referral.referrerEmail d)); [|discriminate].
  destruct (JS.truthy (Referral.friendName d)); [|discriminate].
  destruct (JS.truthy (Referral.friendEmail d)); [|discriminate].
  destruct (JS.includes "@" (JS.to_string (Referral.referrerEmail d)));
    [|discriminate].
  destruct (JS.includes "@" (JS.to_string (Referral.friendEmail d)));
    [|discriminate].
  destruct (JS.toLowerCase (JS.to_string (Referral.referrerEmail d))
            =? JS.toLowerCase (JS.to_string (Referral.friendEmail d)));
    [discriminate|].
  cbn [negb orb andb]. unfold_monad. explore.
  all: intros Hok; try discriminate Hok.
  all: repeat split; try reflexivity.
  all: eexists; split; [reflexivity|now apply negb_false_iff].
Qed.

Lemma X22_referral_success_is_earned_witness :
  referral_valid ann_referral = true.
Proof.
  exact (proj1 (X22_referral_success_is_earned configured ann_referral
                  friendly eq_refl)).
Defined.

(** A request the alpha validator rejects is answered 400. *)
Lemma alpha_invalid_400 cfg d w :
  alpha_valid d = false ->
  exists msg,
    result (AlphaSignup.handler cfg (post d)) w
    = Normal (respond 400 (ErrorBody msg)).
Proof.
  unfold alpha_valid, alpha_fields_ok.
  unfold_handlers. unfold_monad. hide_handle_test d. intros Hv.
  destruct (JS.truthy (AlphaSignup.name d)); [|eexists; reflexivity].
  destruct (JS.truthy (AlphaSignup.email d)); [|eexists; reflexivity].
  destruct (JS.truthy (AlphaSignup.github d)); [|eexists; reflexivity].
  destruct (JS.truthy (AlphaSignup.discovery d)); [|eexists; reflexivity].
  destruct (JS.truthy (AlphaSignup.motivation d)); [|eexists; reflexivity].
  destruct (JS.includes "@" (JS.to_string (AlphaSignup.email d)));
    [|eexists; reflexivity].
  destruct (String.length (JS.to_string (AlphaSignup.motivation d)) <? 20)%nat;
    [eexists; reflexivity|].
  cbn [andb negb orb] in Hv. subst. eexists; reflexivity.
Qed.

(** A valid alpha request that does not get past the bot check is answered
    400. *)
Lemma alpha_refused_400 cfg d w :
  alpha_valid d = true ->
  bot_check_passes cfg d w = false ->
  result (AlphaSignup.handler cfg (post d)) w
  = Normal (respond 400
              (ErrorBody "Bot verification failed. Please try again.")).
Proof.
  intros Hv Hb. unfold bot_check_passes, bot_check_runs in Hb.
  revert Hb. unfold_handlers. use_facts. unfold_monad. explore.
  all: intros Hb; first [discriminate Hb | reflexivity].
Qed.

(** X23.  When the alpha handler says yes: a POST is answered 200 exactly
    when the submission passes the validator and the bot check lets it
    through (it does not run, or the verification service answers with a
    truthy [success]).  The email service and its answers play no part. *)
Theorem X23_alpha_success_iff
    (cfg : Config) (d : AlphaSignup.AlphaSignupData) (w : World) :
  result (AlphaSignup.handler cfg (post d)) w
  = Normal (respond 200 (SuccessBody "Alpha access request submitted!"))
  <-> alpha_valid d = true /\ bot_check_passes cfg d w = true.
Proof.
  split.
  - intros Hok. destruct (alpha_valid d) eqn:Hv.
    + destruct (bot_check_passes cfg d w) eqn:Hb; [now split|].
      rewrite (alpha_refused_400 cfg d w Hv Hb) in Hok. discriminate Hok.
    + destruct (alpha_invalid_400 cfg d w Hv) as [msg E].
      rewrite E in Hok. discriminate Hok.
  - intros [Hv Hb]. now apply alpha_accepts.
Qed.
